(** * sofainfo: flat-buffer indexing and the reporting tool of the SOFA API

    A shallow embedding of [libsofa/src/sofainfo.cpp] and of the interface
    declared in [src/SOFAFreeFieldDirectivityTF.h].

    Data model.  The target is LP64: [unsigned long] and [std::size_t] are
    64-bit, [unsigned int] is 32-bit; every arithmetic operation of the
    source is written with its wrap-around.  A [double] is a binary64
    float; the development only moves doubles around, it never computes
    with them. *)

From Stdlib Require Import ZArith List Ascii String Bool Lia Floats.PrimFloat.
Import ListNotations.
Local Open Scope Z_scope.

(** ** Machine integers *)

Module ULong.
(** [unsigned long] / [std::size_t]. *)
Definition bits : Z := 64.
Definition modulus : Z := 2 ^ bits.
Definition max : Z := modulus - 1.
Definition wrap (x : Z) : Z := x mod modulus.
Definition add (a b : Z) : Z := wrap (a + b).
Definition mul (a b : Z) : Z := wrap (a * b).
Definition in_range (x : Z) : Prop := 0 <= x < modulus.
End ULong.

Module UInt.
(** [unsigned int]. *)
Definition bits : Z := 32.
Definition modulus : Z := 2 ^ bits.
Definition wrap (x : Z) : Z := x mod modulus.
(** The C cast [(unsigned int) x]. *)
Definition cast (x : Z) : Z := wrap x.
Definition in_range (x : Z) : Prop := 0 <= x < modulus.
End UInt.

(** ** The indexing helpers (sofainfo.cpp, lines 27-50) *)

(** [return dim2 * dim3 * i + dim3 * j + k;] on [unsigned long] operands;
    [dim1] is a parameter of the source function that its body never reads. *)
Definition array3DIndex (i j k dim1 dim2 dim3 : Z) : Z :=
  ULong.add (ULong.add (ULong.mul (ULong.mul dim2 dim3) i) (ULong.mul dim3 j)) k.

(** [return dim2 * i + j;] *)
Definition array2DIndex (i j dim1 dim2 : Z) : Z :=
  ULong.add (ULong.mul dim2 i) j.

(** ** The data model's row-major formula (spec, section 3)

    These two definitions follow the words of the specification, not the
    source: they are what the helpers are compared with. *)

Definition product (shape : list Z) : Z := fold_right Z.mul 1 shape.

(** "for shape [d0,...,dn-1], the flat index of (i0,...,in-1) is
    the sum over k of ik times the product of the dj with j > k". *)
Fixpoint row_major_formula (shape index : list Z) : Z :=
  match shape, index with
  | _ :: inner, i :: rest => i * product inner + row_major_formula inner rest
  | _, _ => 0
  end.

(** Decoding "by successive division and modulo over the inner dimension
    sizes": the quotient by the size of the inner block is the outermost
    component, the remainder is decoded over the inner shape. *)
Fixpoint unflatten (shape : list Z) (flat : Z) : list Z :=
  match shape with
  | [] => []
  | _ :: inner => flat / product inner :: unflatten inner (flat mod product inner)
  end.

(** A multi-index is valid for a shape when it has the shape's rank and
    every component is below the corresponding dimension size. *)
Fixpoint valid_index (shape index : list Z) : Prop :=
  match shape, index with
  | [], [] => True
  | d :: inner, i :: rest => 0 <= i < d /\ valid_index inner rest
  | _, _ => False
  end.

(** ** Doubles, vectors and the output stream *)

Definition double : Type := float.

(** [std::vector<double>]. *)
Definition vector : Type := list double.

(** No [std::vector<double>] holds more than [SIZE_MAX / sizeof(double)]
    elements, whatever the implementation's [max_size()]. *)
Definition vector_max_size : Z := ULong.max / 8.

(** What is sent to a [std::ostream].  The formatting of numbers and the
    padding done by [sofa::String::PadWith] are left to the stream. *)
Inductive token : Type :=
| Text (s : string)
| Padded (s : string)
| Real (x : double)
| Unsigned (n : Z)
| SeparationLine
| Endl.

Definition ostream : Type := list token.

(** ** Control effects of the tool *)

Inductive exn : Type :=
| StdException (what : string)
| OtherException.

Inductive fault : Type :=
| Exception (e : exn)
| AssertionFailure
| OutOfBounds (index size : Z)
| BufferOverrun.

Inductive outcome (A : Type) : Type :=
| Done (a : A)
| Fault (f : fault).
Arguments Done {A} a.
Arguments Fault {A} f.

(** A computation writes to [std::cout] and either finishes or stops at a
    fault; what was written before the fault stays written. *)
Definition M (A : Type) : Type := ostream -> outcome A * ostream.

Definition ret {A} (a : A) : M A := fun out => (Done a, out).

Definition bind {A B} (c : M A) (k : A -> M B) : M B :=
  fun out =>
    match c out with
    | (Done a, out') => k a out'
    | (Fault f, out') => (Fault f, out')
    end.

Declare Scope sofa_scope.
Delimit Scope sofa_scope with sofa.
Notation "x <- c ;; k" := (bind c (fun x => k))
  (at level 61, c at next level, right associativity) : sofa_scope.
Notation "c ;; k" := (bind c (fun _ => k))
  (at level 61, right associativity) : sofa_scope.
Local Open Scope sofa_scope.

Definition stop {A} (f : fault) : M A := fun out => (Fault f, out).

(** [output << t] *)
Definition print (t : token) : M unit := fun out => (Done tt, out ++ [t]).

Definition emit (ts : ostream) : M unit := fun out => (Done tt, out ++ ts).

(** Modelled from the spec: the macro [SOFA_ASSERT] is defined in a header
    that is not part of the sources; section 9 of the specification says
    the reference behaviour "asserts (fatal-on-failure)". *)
Definition SOFA_ASSERT (cond : bool) : M unit :=
  if cond then ret tt else stop AssertionFailure.

(** [v[index]] on a vector, [index] a [std::size_t]: reading outside
    [0 .. size-1] is undefined behaviour, recorded as a fault. *)
Definition vector_at {A} (v : list A) (index : Z) : M A :=
  if index <? 0 then stop (OutOfBounds index (Z.of_nat (List.length v)))
  else match nth_error v (Z.to_nat index) with
       | Some x => ret x
       | None => stop (OutOfBounds index (Z.of_nat (List.length v)))
       end.

(** [v.resize(n)] on a freshly constructed vector: [n] value-initialised
    doubles, or [std::length_error] when no vector can be that long
    (memory is otherwise taken to suffice). *)
Definition vector_resize (n : Z) : M vector :=
  if n <=? vector_max_size
  then ret (repeat 0%float (Z.to_nat n))
  else stop (Exception (StdException "vector::resize")).

(** A callee that receives [&pos[0]] stores [vals] from the start of the
    buffer; it cannot change the vector's size, and storing more than the
    buffer holds overruns it. *)
Definition store_through (pos vals : vector) : M vector :=
  if (List.length vals <=? List.length pos)%nat
  then ret (vals ++ skipn (List.length vals) pos)
  else stop BufferOverrun.

(** [for (std::size_t i = 0; i < bound; i++) body(i)] *)
Fixpoint for_loop_from (start : Z) (count : nat) (body : Z -> M unit) : M unit :=
  match count with
  | O => ret tt
  | S count' => body start ;; for_loop_from (start + 1) count' body
  end.

Definition for_loop (bound : Z) (body : Z -> M unit) : M unit :=
  for_loop_from 0 (Z.to_nat bound) body.

(** ** The library interface used by the tool

    [sofa::File] and [sofa::FreeFieldDirectivityTF] are implemented outside
    the sources at hand; the tool is modelled over any implementation.  A
    call either returns or throws. *)

Inductive call (A : Type) : Type :=
| Returns (a : A)
| Throws (e : exn).
Arguments Returns {A} a.
Arguments Throws {A} e.

Definition invoke {A} (c : call A) : M A :=
  match c with
  | Returns a => ret a
  | Throws e => stop (Exception e)
  end.

(** The position methods of [sofa::File] come as one family per variable
    ([GetEmitterPosition], [GetReceiverPosition], [GetListenerPosition],
    [GetListenerView], [GetListenerUp], [GetSourcePosition]); the variable
    name selects the member.  [GetPosition] is the overload
    [(coordinates, units)] followed by [sofa::Coordinates::GetName] and
    [sofa::Units::GetName]; [GetPosition2D] and [GetPosition3D] are the
    overloads [(double *values, dim1, dim2)] and
    [(double *values, dim1, dim2, dim3)], giving the returned flag and the
    values stored through the pointer.  The three accessors of
    [FreeFieldDirectivityTF] take the vector they are passed and give the
    returned flag and the vector as they leave it. *)
Record SofaLib (File Directivity : Type) : Type := {
  File_open : string -> call File;
  IsValid : File -> call bool;
  PrintAllAttributes : File -> bool -> call ostream;
  PrintSOFADimensions : File -> bool -> call ostream;
  GetAttributeValueAsString : File -> string -> call string;
  GetVariableDimensions : File -> string -> call (list Z);
  GetPosition : File -> string -> call (bool * string * string);
  GetPosition2D : File -> string -> Z -> Z -> call (bool * vector);
  GetPosition3D : File -> string -> Z -> Z -> Z -> call (bool * vector);
  Directivity_open : string -> call Directivity;
  Directivity_IsValid : Directivity -> call bool;
  GetNumReceivers : Directivity -> call Z;
  GetNumEmitters : Directivity -> call Z;
  GetNumMeasurements : Directivity -> call Z;
  GetNumDataSamples : Directivity -> call Z;
  GetFrequencyValues : Directivity -> vector -> call (bool * vector);
  GetDataReal : Directivity -> vector -> call (bool * vector);
  GetDataImag : Directivity -> vector -> call (bool * vector)
}.
Arguments File_open {File Directivity}.
Arguments IsValid {File Directivity}.
Arguments PrintAllAttributes {File Directivity}.
Arguments PrintSOFADimensions {File Directivity}.
Arguments GetAttributeValueAsString {File Directivity}.
Arguments GetVariableDimensions {File Directivity}.
Arguments GetPosition {File Directivity}.
Arguments GetPosition2D {File Directivity}.
Arguments GetPosition3D {File Directivity}.
Arguments Directivity_open {File Directivity}.
Arguments Directivity_IsValid {File Directivity}.
Arguments GetNumReceivers {File Directivity}.
Arguments GetNumEmitters {File Directivity}.
Arguments GetNumMeasurements {File Directivity}.
Arguments GetNumDataSamples {File Directivity}.
Arguments GetFrequencyValues {File Directivity}.
Arguments GetDataReal {File Directivity}.
Arguments GetDataImag {File Directivity}.

(** ** Help text, argument test and process results (sofainfo.cpp, lines 14-18, 352, 517-528) *)

Definition DisplayHelp : M unit :=
  print (Text "sofainfo prints info about SOFA files") ;; print Endl ;;
  print (Text "    syntax : ./sofainfo [filename]") ;; print Endl.

(** [in == "h" || in == "-h" || in == "--h" || in == "--help" || in == "-help"] *)
Definition is_help (arg : string) : bool :=
  (arg =? "h")%string || (arg =? "-h")%string || (arg =? "--h")%string
  || (arg =? "--help")%string || (arg =? "-help")%string.

Definition dquote : string := String "034"%char EmptyString.

(** How the process ends: [return]/[exit] with a code, [abort()] after a
    failed assertion, or undefined behaviour. *)
Inductive status : Type :=
| Exit (code : Z)
| Aborted
| Undefined.

Record process : Type := {
  stdout : ostream;
  stderr : ostream;
  ended : status
}.

(** How [main] ends once the [try] block is left: [return 0;] when the
    block finishes, one of the two handlers ([exit(1)]) when an exception
    escapes it; a failed assertion or an out-of-bounds access is not an
    exception and no handler sees it. *)
Definition handle (result : outcome unit * ostream) : process :=
  match result with
  | (Done _, out) => {| stdout := out; stderr := []; ended := Exit 0 |}
  | (Fault (Exception (StdException what)), out) =>
      {| stdout := out;
         stderr := [Text "exception occured : "; Text what; Endl];
         ended := Exit 1 |}
  | (Fault (Exception OtherException), out) =>
      {| stdout := out;
         stderr := [Text "unknown exception occured"; Endl];
         ended := Exit 1 |}
  | (Fault AssertionFailure, out) =>
      {| stdout := out; stderr := []; ended := Aborted |}
  | (Fault _, out) =>
      {| stdout := out; stderr := []; ended := Undefined |}
  end.

(** ** The position printers (sofainfo.cpp, lines 58-331) *)

Section Printers.
Context {File Directivity : Type} (lib : SofaLib File Directivity).

(** The opening statements of every printer: the coordinate system and
    units of the variable, asserted to be present, on two lines. *)
Definition print_type_and_units (theFile : File) (name : string) : M unit :=
  info <- invoke (GetPosition lib theFile name) ;;
  let '(ok, coordinates, units) := info in
  SOFA_ASSERT (Bool.eqb ok true) ;;
  print (Padded (name ++ ":Type")) ;; print (Text " = ") ;;
  print (Text coordinates) ;; print Endl ;;
  print (Padded (name ++ ":Units")) ;; print (Text " = ") ;;
  print (Text units) ;; print Endl.

(** The loop nest over a rank-2 buffer, the same text in every printer. *)
Definition print_values2D (pos : vector) (dim0 dim1 : Z) : M unit :=
  for_loop dim0 (fun i =>
    for_loop dim1 (fun j =>
      let index := array2DIndex i j dim0 dim1 in
      x <- vector_at pos index ;;
      print (Real x) ;; print (Text " "))).

(** The loop nest over a rank-3 buffer. *)
Definition print_values3D (pos : vector) (dim0 dim1 dim2 : Z) : M unit :=
  for_loop dim0 (fun i =>
    for_loop dim1 (fun j =>
      for_loop dim2 (fun k =>
        let index := array3DIndex i j k dim0 dim1 dim2 in
        x <- vector_at pos index ;;
        print (Real x) ;; print (Text " ")))).

(** [pos.resize(dims[0] * dims[1]); theFile.GetXxx(&pos[0], dims[0], dims[1]);]
    then the label and the loop nest. *)
Definition print_rank2 (theFile : File) (name label : string)
           (dims : list Z) : M unit :=
  d0 <- vector_at dims 0 ;;
  d1 <- vector_at dims 1 ;;
  pos <- vector_resize (ULong.mul d0 d1) ;;
  got <- invoke (GetPosition2D lib theFile name d0 d1) ;;
  pos <- store_through pos (snd got) ;;
  print (Padded label) ;; print (Text " = ") ;;
  print_values2D pos d0 d1.

(** [pos.resize(dims[0] * dims[1] * dims[2]);
     theFile.GetXxx(&pos[0], dims[0], dims[1], dims[2]);]
    then the label and the loop nest. *)
Definition print_rank3 (theFile : File) (name label : string)
           (dims : list Z) : M unit :=
  d0 <- vector_at dims 0 ;;
  d1 <- vector_at dims 1 ;;
  d2 <- vector_at dims 2 ;;
  pos <- vector_resize (ULong.mul (ULong.mul d0 d1) d2) ;;
  got <- invoke (GetPosition3D lib theFile name d0 d1 d2) ;;
  pos <- store_through pos (snd got) ;;
  print (Padded label) ;; print (Text " = ") ;;
  print_values3D pos d0 d1 d2.

(** A variable that is printed as rank 2 or rank 3, whichever the file
    has ([PrintEmitter] and [PrintReceiver]). *)
Definition print_rank2_or_rank3 (theFile : File) (name label2 label3 : string)
  : M unit :=
  print_type_and_units theFile name ;;
  dims <- invoke (GetVariableDimensions lib theFile name) ;;
  SOFA_ASSERT ((List.length dims =? 3)%nat || (List.length dims =? 2)%nat) ;;
  (if (List.length dims =? 2)%nat
   then print_rank2 theFile name label2 dims
   else print_rank3 theFile name label3 dims) ;;
  print Endl.

(** A variable that is printed as rank 2 only ([PrintListener] and
    [PrintSource]). *)
Definition print_rank2_only (theFile : File) (name : string) : M unit :=
  print_type_and_units theFile name ;;
  dims <- invoke (GetVariableDimensions lib theFile name) ;;
  SOFA_ASSERT (List.length dims =? 2)%nat ;;
  print_rank2 theFile name name dims ;;
  print Endl.

Definition PrintEmitter (theFile : File) : M unit :=
  print_rank2_or_rank3 theFile "EmitterPosition"
                       "Emitter Position" "EmitterPosition".

Definition PrintReceiver (theFile : File) : M unit :=
  print_rank2_or_rank3 theFile "ReceiverPosition"
                       "ReceiverPosition" "ReceiverPosition".

Definition PrintListener (theFile : File) : M unit :=
  print_rank2_only theFile "ListenerPosition" ;;
  print Endl ;;
  print_rank2_only theFile "ListenerView" ;;
  print Endl ;;
  print_rank2_only theFile "ListenerUp".

Definition PrintSource (theFile : File) : M unit :=
  print_rank2_only theFile "SourcePosition".

(** ** The entry point (sofainfo.cpp, lines 339-529) *)

(** The frequency block: the flag returned by [GetFrequencyValues] is
    dropped and the vector is read at [0 .. N-1]. *)
Definition print_frequencies (directivity : Directivity) (N : Z) : M unit :=
  print Endl ;;
  print (Text ("Frequency Values (" ++ dquote ++ "N" ++ dquote ++ "): ")) ;;
  print Endl ;;
  got <- invoke (GetFrequencyValues lib directivity []) ;;
  let frequencies := snd got in
  for_loop N (fun i =>
    x <- vector_at frequencies i ;;
    print (Real x) ;; print (Text " ")) ;;
  print Endl.

(** One half of the data block: the heading, the read, the loop nest. *)
Definition print_data (name : string)
           (get : vector -> call (bool * vector)) (M_ R N : Z) : M unit :=
  print Endl ;;
  print (Text (name ++ ": [")) ;; print (Unsigned M_) ;; print (Text "x") ;;
  print (Unsigned R) ;; print (Text "x") ;; print (Unsigned N) ;;
  print (Text "]") ;; print Endl ;;
  got <- invoke (get []) ;;
  let data := snd got in
  print_values3D data M_ R N.

(** The body of the [try] block; each [return 0;] inside it ends the
    computation normally. *)
Definition report (filename : string) : M unit :=
  theFile <- invoke (File_open lib filename) ;;
  isSOFA <- invoke (IsValid lib theFile) ;;
  if Bool.eqb isSOFA true then
    print (Text filename) ;; print (Text " is a valid SOFA file") ;; print Endl ;;
    print SeparationLine ;;
    attributes <- invoke (PrintAllAttributes lib theFile true) ;;
    emit attributes ;;
    print Endl ;;
    print SeparationLine ;;
    dimensions <- invoke (PrintSOFADimensions lib theFile true) ;;
    emit dimensions ;;
    print Endl ;; print Endl ;;
    dataType <- invoke (GetAttributeValueAsString lib theFile "DataType") ;;
    directivity <- invoke (Directivity_open lib filename) ;;
    isDirectivity <- invoke (Directivity_IsValid lib directivity) ;;
    if Bool.eqb isDirectivity true then
      print (Text filename) ;;
      print (Text " is a valid 'FreeFieldDirectivityTF' file") ;; print Endl ;;
      r <- invoke (GetNumReceivers lib directivity) ;;
      e <- invoke (GetNumEmitters lib directivity) ;;
      m <- invoke (GetNumMeasurements lib directivity) ;;
      n <- invoke (GetNumDataSamples lib directivity) ;;
      let R := UInt.cast r in
      let E := UInt.cast e in
      let M_ := UInt.cast m in
      let N := UInt.cast n in
      print Endl ;;
      PrintReceiver theFile ;;
      print Endl ;;
      PrintEmitter theFile ;;
      print_frequencies directivity N ;;
      print_data "Data.Real" (GetDataReal lib directivity) M_ R N ;;
      print_data "Data.Imag" (GetDataImag lib directivity) M_ R N
    else
      print (Text filename) ;;
      print (Text " is not a valid 'FreeFieldDirectivityTF' file") ;; print Endl
  else
    print (Text filename) ;; print (Text " is not a valid SOFA file") ;; print Endl.

(** [argv] holds the [argc] arguments, the program name first. *)
Definition main (argv : list string) : process :=
  match argv with
  | [_; arg] =>
      if is_help arg
      then handle (DisplayHelp [])
      else handle (report arg [])
  | _ => handle (DisplayHelp [])
  end.
End Printers.

(** ** The typed accessors, from the specification

    The bodies of [sofa::File::Get...Position] and of
    [FreeFieldDirectivityTF::GetFrequencyValues], [GetDataReal] and
    [GetDataImag] are not in the sources (the header only declares them).
    This module states them as sections 4.4, 4.5, 6 and 7 of the
    specification describe them. *)

Module SpecModel.

(** Modelled from the spec: the error taxonomy of section 7, which no
    source file at hand declares. *)
Inductive error : Type :=
| OpenError
| DimensionConflict
| ShapeMismatch
| MissingAttribute (name : string)
| MissingVariable (name : string)
| UnknownUnit
| UnknownCoordinateSystem
| IOError (name : string)
| NotPresent.

(** Modelled from the spec: the FlatBuffer of section 3, "a contiguous
    sequence of doubles plus the ordered dimension sizes that define its
    logical shape". *)
Record FlatBuffer : Type := {
  values : list double;
  shape : list Z
}.

(** Modelled from the spec: a variable as the array store holds it, with
    the shape the store reports for it and its doubles in file order. *)
Record StoredVariable : Type := {
  reported_shape : list Z;
  contents : list double
}.

(** Modelled from the spec: an open file, that is the array store behind
    it and the Dimension Registry's resolved sizes, by dimension letter. *)
Record OpenFile : Type := {
  variables : string -> option StoredVariable;
  resolved : string -> option Z
}.

(** Modelled from the spec: [getVariableShape(name)] of the Array Store
    Adapter (section 6). *)
Definition getVariableShape (f : OpenFile) (name : string) : option (list Z) :=
  option_map reported_shape (variables f name).

(** Modelled from the spec: the size the store reports for a variable,
    the number of elements of its reported shape. *)
Definition reported_size (f : OpenFile) (name : string) : option Z :=
  option_map product (getVariableShape f name).

(** Modelled from the spec: [readTyped(name, expectedElementCount)] of the
    Array Store Adapter, "sequence of doubles | IOError"; it hands over the
    stored doubles as they are or fails. *)
Definition readTyped (f : OpenFile) (name : string) (expectedElementCount : Z)
  : error + list double :=
  match variables f name with
  | Some v =>
      if Z.of_nat (List.length (contents v)) =? expectedElementCount
      then inr (contents v)
      else inl (IOError name)
  | None => inl (IOError name)
  end.

(** The rank a caller asks for (section 4.4: "callers request either 2D
    or 3D access"). *)
Inductive access : Type := Access2D | Access3D.

Definition rank_of (a : access) : nat :=
  match a with Access2D => 2%nat | Access3D => 3%nat end.

(** Modelled from the spec: [getPositionValues(role)] of section 4.4, the
    body of the [sofa::File] position accessors: "callers request either
    2D or 3D access and receive a ShapeMismatch error if the file's actual
    rank disagrees with the call made". *)
Definition getPositionValues (f : OpenFile) (name : string) (requested : access)
  : error + FlatBuffer :=
  match getVariableShape f name with
  | None => inl NotPresent
  | Some dims =>
      if (List.length dims =? rank_of requested)%nat
      then match readTyped f name (product dims) with
           | inr vals => inr {| values := vals; shape := dims |}
           | inl e => inl e
           end
      else inl ShapeMismatch
  end.

(** Modelled from the spec: [getFrequencyValues()] of section 4.5, the
    body of [FreeFieldDirectivityTF::GetFrequencyValues]: "sequence of N
    doubles", read from the variable of the frequency axis. *)
Definition getFrequencyValues (f : OpenFile) : error + list double :=
  match resolved f "N" with
  | Some n => readTyped f "N" n
  | None => inl (MissingVariable "N")
  end.

(** Modelled from the spec: [getDataReal()] and [getDataImag()] of section
    4.5, the bodies of [FreeFieldDirectivityTF::GetDataReal] and
    [GetDataImag]: a FlatBuffer of logical shape [M,R,N]; "any mismatch
    between the store's reported size and the resolved M*R*N is a fatal
    ShapeMismatch, never silently truncated or padded". *)
Definition getData (f : OpenFile) (name : string) : error + FlatBuffer :=
  match resolved f "M", resolved f "R", resolved f "N" with
  | Some m, Some r, Some n =>
      match reported_size f name with
      | None => inl (MissingVariable name)
      | Some size =>
          if size =? m * r * n
          then match readTyped f name (m * r * n) with
               | inr vals => inr {| values := vals; shape := [m; r; n] |}
               | inl e => inl e
               end
          else inl ShapeMismatch
      end
  | _, _, _ => inl NotPresent
  end.

Definition getDataReal (f : OpenFile) : error + FlatBuffer := getData f "Data.Real".
Definition getDataImag (f : OpenFile) : error + FlatBuffer := getData f "Data.Imag".

End SpecModel.

(** ** Vocabulary of the statements *)

(** The indices [start, start+1, ...] met by [count] turns of a loop. *)
Definition zrange (start : Z) (count : nat) : list Z :=
  map (fun n => start + Z.of_nat n) (seq 0 count).

(** [post c Q]: from every state of the output, [c] never reads a vector
    past its end, and a value it returns satisfies [Q]. *)
Definition post {A} (c : M A) (Q : A -> Prop) : Prop :=
  forall out,
    match fst (c out) with
    | Done a => Q a
    | Fault (OutOfBounds _ _) => False
    | Fault _ => True
    end.

(** [c] never reads a vector past its end. *)
Definition in_bounds {A} (c : M A) : Prop :=
  forall out index size, fst (c out) <> Fault (OutOfBounds index size).

(** [c] finishes, whatever was written before. *)
Definition always_done (c : M unit) : Prop :=
  forall out, exists out', c out = (Done tt, out').

(** [c] reads a vector past its end, whatever was written before. *)
Definition always_oob (c : M unit) : Prop :=
  forall out, exists index size out', c out = (Fault (OutOfBounds index size), out').

(** The tokens printed for one element: [output << x << " "]. *)
Definition element (x : double) : ostream := [Real x; Text " "].

(** The element of a buffer at a position, [0.0] outside it. *)
Definition at_index (pos : vector) (index : Z) : double :=
  nth (Z.to_nat index) pos 0%float.

(** The order in which a rank-2 loop nest meets the positions of its
    buffer, and likewise for rank 3. *)
Definition traversal2D (d0 d1 : Z) : list Z :=
  flat_map (fun i => map (fun j => array2DIndex i j d0 d1) (zrange 0 (Z.to_nat d1)))
           (zrange 0 (Z.to_nat d0)).

Definition traversal3D (d0 d1 d2 : Z) : list Z :=
  flat_map (fun i =>
    flat_map (fun j => map (fun k => array3DIndex i j k d0 d1 d2) (zrange 0 (Z.to_nat d2)))
             (zrange 0 (Z.to_nat d1)))
           (zrange 0 (Z.to_nat d0)).

(** The two lines that open every printer. *)
Definition header (name coordinates units : string) : ostream :=
  [Padded (name ++ ":Type"); Text " = "; Text coordinates; Endl;
   Padded (name ++ ":Units"); Text " = "; Text units; Endl].

(** A library with the flags of the three data accessors replaced. *)
Definition override_flags {File Directivity} (flag : bool -> bool)
           (lib : SofaLib File Directivity) : SofaLib File Directivity :=
  let reflag (c : call (bool * vector)) : call (bool * vector) :=
    match c with
    | Returns (ok, v) => Returns (flag ok, v)
    | Throws e => Throws e
    end in
  {| File_open := File_open lib;
     IsValid := IsValid lib;
     PrintAllAttributes := PrintAllAttributes lib;
     PrintSOFADimensions := PrintSOFADimensions lib;
     GetAttributeValueAsString := GetAttributeValueAsString lib;
     GetVariableDimensions := GetVariableDimensions lib;
     GetPosition := GetPosition lib;
     GetPosition2D := GetPosition2D lib;
     GetPosition3D := GetPosition3D lib;
     Directivity_open := Directivity_open lib;
     Directivity_IsValid := Directivity_IsValid lib;
     GetNumReceivers := GetNumReceivers lib;
     GetNumEmitters := GetNumEmitters lib;
     GetNumMeasurements := GetNumMeasurements lib;
     GetNumDataSamples := GetNumDataSamples lib;
     GetFrequencyValues := fun d v => reflag (GetFrequencyValues lib d v);
     GetDataReal := fun d v => reflag (GetDataReal lib d v);
     GetDataImag := fun d v => reflag (GetDataImag lib d v) |}.

(** The flat index of a multi-index of rank 2 or 3, through the helper of
    that rank. *)
Definition flat_index (shape index : list Z) : option Z :=
  match shape, index with
  | [d0; d1], [i; j] => Some (array2DIndex i j d0 d1)
  | [d0; d1; d2], [i; j; k] => Some (array3DIndex i j k d0 d1 d2)
  | _, _ => None
  end.

(** The body of every printing loop: [output << pos[index] << " "]. *)
Definition read_element (pos : vector) (index : Z) : M unit :=
  x <- vector_at pos index ;;
  print (Real x) ;; print (Text " ").

(** Dimension sizes whose product is an [unsigned long]. *)
Definition dims_fit (dims : list Z) : Prop :=
  Forall (fun d => 0 <= d) dims /\ product dims < ULong.modulus.

(** The buffer that a printer reads: the [n] zeros of [resize], with the
    values the accessor stored over them. *)
Definition filled (n : Z) (vals : vector) : vector :=
  vals ++ skipn (List.length vals) (repeat 0%float (Z.to_nat n)).

(** ** Sample inputs

    A library that answers for one file: two receivers at fixed positions
    (rank 2), one emitter with a position per measurement (rank 3), two
    measurements, two frequencies.  Opening the file named [missing]
    throws. *)
Definition sample_lib : SofaLib unit unit :=
  {| File_open := fun name =>
       if (name =? "missing")%string
       then Throws (StdException "cannot open")
       else Returns tt;
     IsValid := fun _ => Returns true;
     PrintAllAttributes := fun _ _ => Returns [Text "Conventions = SOFA"; Endl];
     PrintSOFADimensions := fun _ _ => Returns [Text "M = 2"; Endl];
     GetAttributeValueAsString := fun _ _ => Returns "TF"%string;
     GetVariableDimensions := fun _ name =>
       if (name =? "EmitterPosition")%string
       then Returns [1; 3; 2] else Returns [2; 3];
     GetPosition := fun _ _ => Returns (true, "cartesian"%string, "metre"%string);
     GetPosition2D := fun _ _ _ _ => Returns (true, [1; 2; 3; 4; 5; 6]%float);
     GetPosition3D := fun _ _ _ _ _ => Returns (true, [1; 2; 3; 4; 5; 6]%float);
     Directivity_open := fun _ => Returns tt;
     Directivity_IsValid := fun _ => Returns true;
     GetNumReceivers := fun _ => Returns 2;
     GetNumEmitters := fun _ => Returns 1;
     GetNumMeasurements := fun _ => Returns 2;
     GetNumDataSamples := fun _ => Returns 2;
     GetFrequencyValues := fun _ _ => Returns (true, [100; 200]%float);
     GetDataReal := fun _ _ => Returns (true, [1; 2; 3; 4; 5; 6; 7; 8]%float);
     GetDataImag := fun _ _ => Returns (true, [8; 7; 6; 5; 4; 3; 2; 1]%float) |}.

(** The same library for a file whose [SourcePosition] is reported with
    the dimensions [2, 2^63]. *)
Definition huge_lib : SofaLib unit unit :=
  {| File_open := File_open sample_lib;
     IsValid := IsValid sample_lib;
     PrintAllAttributes := PrintAllAttributes sample_lib;
     PrintSOFADimensions := PrintSOFADimensions sample_lib;
     GetAttributeValueAsString := GetAttributeValueAsString sample_lib;
     GetVariableDimensions := fun _ _ => Returns [2; 2 ^ 63];
     GetPosition := GetPosition sample_lib;
     GetPosition2D := fun _ _ _ _ => Returns (false, []);
     GetPosition3D := fun _ _ _ _ _ => Returns (false, []);
     Directivity_open := Directivity_open sample_lib;
     Directivity_IsValid := Directivity_IsValid sample_lib;
     GetNumReceivers := GetNumReceivers sample_lib;
     GetNumEmitters := GetNumEmitters sample_lib;
     GetNumMeasurements := GetNumMeasurements sample_lib;
     GetNumDataSamples := GetNumDataSamples sample_lib;
     GetFrequencyValues := GetFrequencyValues sample_lib;
     GetDataReal := GetDataReal sample_lib;
     GetDataImag := GetDataImag sample_lib |}.

(** A stored file, in the terms of the specification: M = 2, R = 1, N = 5,
    a frequency axis of five values, a [Data.Real] of shape [2,1,5], a
    [Data.Imag] whose store reports the shape [2,1,4], and a
    [ListenerPosition] of shape [1,3,2]. *)
Definition sample_file : SpecModel.OpenFile :=
  {| SpecModel.variables := fun name =>
       if (name =? "N")%string then
         Some {| SpecModel.reported_shape := [5];
                 SpecModel.contents := [100; 200; 400; 800; 1600]%float |}
       else if (name =? "Data.Real")%string then
         Some {| SpecModel.reported_shape := [2; 1; 5];
                 SpecModel.contents := [1; 2; 3; 4; 5; 6; 7; 8; 9; 10]%float |}
       else if (name =? "Data.Imag")%string then
         Some {| SpecModel.reported_shape := [2; 1; 4];
                 SpecModel.contents := [1; 2; 3; 4; 5; 6; 7; 8]%float |}
       else if (name =? "ListenerPosition")%string then
         Some {| SpecModel.reported_shape := [1; 3; 2];
                 SpecModel.contents := [0; 0; 0; 1; 1; 1]%float |}
       else None;
     SpecModel.resolved := fun letter =>
       if (letter =? "M")%string then Some 2
       else if (letter =? "R")%string then Some 1
       else if (letter =? "N")%string then Some 5
       else None |}.

(** The sample library again, for a file whose [Data.Real] cannot be
    read: the accessor throws. *)
Definition unreadable_lib : SofaLib unit unit :=
  {| File_open := File_open sample_lib;
     IsValid := IsValid sample_lib;
     PrintAllAttributes := PrintAllAttributes sample_lib;
     PrintSOFADimensions := PrintSOFADimensions sample_lib;
     GetAttributeValueAsString := GetAttributeValueAsString sample_lib;
     GetVariableDimensions := GetVariableDimensions sample_lib;
     GetPosition := GetPosition sample_lib;
     GetPosition2D := GetPosition2D sample_lib;
     GetPosition3D := GetPosition3D sample_lib;
     Directivity_open := Directivity_open sample_lib;
     Directivity_IsValid := Directivity_IsValid sample_lib;
     GetNumReceivers := GetNumReceivers sample_lib;
     GetNumEmitters := GetNumEmitters sample_lib;
     GetNumMeasurements := GetNumMeasurements sample_lib;
     GetNumDataSamples := GetNumDataSamples sample_lib;
     GetFrequencyValues := GetFrequencyValues sample_lib;
     GetDataReal := fun _ _ => Throws (StdException "NcException");
     GetDataImag := GetDataImag sample_lib |}.

(** ** Further vocabulary *)

(** The result of a call with its returned value replaced. *)
Definition map_call {A B} (g : A -> B) (c : call A) : call B :=
  match c with
  | Returns a => Returns (g a)
  | Throws e => Throws e
  end.

(** A library with the flags of the two position accessors replaced. *)
Definition override_position_flags {File Directivity} (flag : bool -> bool)
           (lib : SofaLib File Directivity) : SofaLib File Directivity :=
  {| File_open := File_open lib;
     IsValid := IsValid lib;
     PrintAllAttributes := PrintAllAttributes lib;
     PrintSOFADimensions := PrintSOFADimensions lib;
     GetAttributeValueAsString := GetAttributeValueAsString lib;
     GetVariableDimensions := GetVariableDimensions lib;
     GetPosition := GetPosition lib;
     GetPosition2D := fun f name d0 d1 =>
       map_call (fun got => (flag (fst got), snd got)) (GetPosition2D lib f name d0 d1);
     GetPosition3D := fun f name d0 d1 d2 =>
       map_call (fun got => (flag (fst got), snd got)) (GetPosition3D lib f name d0 d1 d2);
     Directivity_open := Directivity_open lib;
     Directivity_IsValid := Directivity_IsValid lib;
     GetNumReceivers := GetNumReceivers lib;
     GetNumEmitters := GetNumEmitters lib;
     GetNumMeasurements := GetNumMeasurements lib;
     GetNumDataSamples := GetNumDataSamples lib;
     GetFrequencyValues := GetFrequencyValues lib;
     GetDataReal := GetDataReal lib;
     GetDataImag := GetDataImag lib |}.

(** A library with the text of its attributes and its number of emitters
    replaced. *)
Definition override_unused {File Directivity} (attribute : string -> string)
           (emitters : Z -> Z) (lib : SofaLib File Directivity)
  : SofaLib File Directivity :=
  {| File_open := File_open lib;
     IsValid := IsValid lib;
     PrintAllAttributes := PrintAllAttributes lib;
     PrintSOFADimensions := PrintSOFADimensions lib;
     GetAttributeValueAsString := fun f name =>
       map_call attribute (GetAttributeValueAsString lib f name);
     GetVariableDimensions := GetVariableDimensions lib;
     GetPosition := GetPosition lib;
     GetPosition2D := GetPosition2D lib;
     GetPosition3D := GetPosition3D lib;
     Directivity_open := Directivity_open lib;
     Directivity_IsValid := Directivity_IsValid lib;
     GetNumReceivers := GetNumReceivers lib;
     GetNumEmitters := fun d => map_call emitters (GetNumEmitters lib d);
     GetNumMeasurements := GetNumMeasurements lib;
     GetNumDataSamples := GetNumDataSamples lib;
     GetFrequencyValues := GetFrequencyValues lib;
     GetDataReal := GetDataReal lib;
     GetDataImag := GetDataImag lib |}.

(** A rank-2 variable that a printer can read: its coordinate system and
    units are present, the file reports the dimensions [d0, d1], the buffer
    of [d0*d1] doubles can be allocated, and the accessor returns after
    storing [vals], at most [d0*d1] doubles. *)
Definition readable_rank2 {File Directivity} (lib : SofaLib File Directivity)
           (theFile : File) (name c u : string) (d0 d1 : Z) (vals : vector) : Prop :=
  GetPosition lib theFile name = Returns (true, c, u)
  /\ GetVariableDimensions lib theFile name = Returns [d0; d1]
  /\ 0 <= d0 /\ 0 <= d1 /\ d0 * d1 <= vector_max_size
  /\ (exists ok, GetPosition2D lib theFile name d0 d1 = Returns (ok, vals))
  /\ Z.of_nat (List.length vals) <= d0 * d1.



(** The buffer of [n] doubles after the accessor stored [vals] in it: the
    stored values, then zeros. *)
Definition zero_padded (n : Z) (vals : vector) : vector :=
  vals ++ repeat 0%float (Z.to_nat n - List.length vals).

(** What a printer writes for one variable: the two opening lines, the
    label, the elements of the buffer from first to last, the end of the
    line. *)
Definition block (name label c u : string) (buffer : vector) : ostream :=
  header name c u ++ [Padded label; Text " = "]
         ++ flat_map element buffer ++ [Endl].

(** What [main] writes before it opens the file as a directivity file. *)
Definition preamble (filename : string) (attributes dimensions : ostream) : ostream :=
  [Text filename; Text " is a valid SOFA file"; Endl; SeparationLine]
    ++ attributes ++ [Endl; SeparationLine] ++ dimensions ++ [Endl; Endl].

(** What the handlers write to [std::cerr]. *)
Definition error_message (e : exn) : ostream :=
  match e with
  | StdException what => [Text "exception occured : "; Text what; Endl]
  | OtherException => [Text "unknown exception occured"; Endl]
  end.

(** The sample library with the metadata flag, the reported dimensions and
    the stored values of every position variable chosen. *)
Definition sample_positions (metadata : bool) (dims : list Z) (vals : vector)
  : SofaLib unit unit :=
  {| File_open := File_open sample_lib;
     IsValid := IsValid sample_lib;
     PrintAllAttributes := PrintAllAttributes sample_lib;
     PrintSOFADimensions := PrintSOFADimensions sample_lib;
     GetAttributeValueAsString := GetAttributeValueAsString sample_lib;
     GetVariableDimensions := fun _ _ => Returns dims;
     GetPosition := fun _ _ => Returns (metadata, "cartesian"%string, "metre"%string);
     GetPosition2D := fun _ _ _ _ => Returns (false, vals);
     GetPosition3D := fun _ _ _ _ _ => Returns (false, vals);
     Directivity_open := Directivity_open sample_lib;
     Directivity_IsValid := Directivity_IsValid sample_lib;
     GetNumReceivers := GetNumReceivers sample_lib;
     GetNumEmitters := GetNumEmitters sample_lib;
     GetNumMeasurements := GetNumMeasurements sample_lib;
     GetNumDataSamples := GetNumDataSamples sample_lib;
     GetFrequencyValues := GetFrequencyValues sample_lib;
     GetDataReal := GetDataReal sample_lib;
     GetDataImag := GetDataImag sample_lib |}.

(** The sample library with the two validity answers chosen, and with the
    opening of the directivity file made to throw when [opens] is false. *)
Definition sample_validity (sofa directivity opens : bool) : SofaLib unit unit :=
  {| File_open := File_open sample_lib;
     IsValid := fun _ => Returns sofa;
     PrintAllAttributes := PrintAllAttributes sample_lib;
     PrintSOFADimensions := PrintSOFADimensions sample_lib;
     GetAttributeValueAsString := GetAttributeValueAsString sample_lib;
     GetVariableDimensions := GetVariableDimensions sample_lib;
     GetPosition := GetPosition sample_lib;
     GetPosition2D := GetPosition2D sample_lib;
     GetPosition3D := GetPosition3D sample_lib;
     Directivity_open := fun _ =>
       if opens then Returns tt else Throws (StdException "NcException");
     Directivity_IsValid := fun _ => Returns directivity;
     GetNumReceivers := GetNumReceivers sample_lib;
     GetNumEmitters := GetNumEmitters sample_lib;
     GetNumMeasurements := GetNumMeasurements sample_lib;
     GetNumDataSamples := GetNumDataSamples sample_lib;
     GetFrequencyValues := GetFrequencyValues sample_lib;
     GetDataReal := GetDataReal sample_lib;
     GetDataImag := GetDataImag sample_lib |}.

(** The part of [report] that follows the preamble, from the opening of
    the file as a directivity file to the end of the [try] block. *)
Definition directivity_report {File Directivity} (lib : SofaLib File Directivity)
           (theFile : File) (filename : string) : M unit :=
  directivity <- invoke (Directivity_open lib filename) ;;
  isDirectivity <- invoke (Directivity_IsValid lib directivity) ;;
  if Bool.eqb isDirectivity true then
    print (Text filename) ;;
    print (Text " is a valid 'FreeFieldDirectivityTF' file") ;; print Endl ;;
    r <- invoke (GetNumReceivers lib directivity) ;;
    e <- invoke (GetNumEmitters lib directivity) ;;
    m <- invoke (GetNumMeasurements lib directivity) ;;
    n <- invoke (GetNumDataSamples lib directivity) ;;
    let R := UInt.cast r in
    let E := UInt.cast e in
    let M_ := UInt.cast m in
    let N := UInt.cast n in
    print Endl ;;
    PrintReceiver lib theFile ;;
    print Endl ;;
    PrintEmitter lib theFile ;;
    print_frequencies lib directivity N ;;
    print_data "Data.Real" (GetDataReal lib directivity) M_ R N ;;
    print_data "Data.Imag" (GetDataImag lib directivity) M_ R N
  else
    print (Text filename) ;;
    print (Text " is not a valid 'FreeFieldDirectivityTF' file") ;; print Endl.

(** * Properties of the model *)

(** ** Arithmetic of the helpers *)

Lemma modulus_pos : 0 < ULong.modulus.
Proof. reflexivity. Qed.

Lemma wrap_range x : ULong.in_range (ULong.wrap x).
Proof. unfold ULong.in_range, ULong.wrap. apply Z.mod_pos_bound, modulus_pos. Qed.

Lemma wrap_small x : ULong.in_range x -> ULong.wrap x = x.
Proof. intros H. apply Z.mod_small, H. Qed.

Lemma array3DIndex_mod i j k dim1 dim2 dim3 :
  array3DIndex i j k dim1 dim2 dim3 = ULong.wrap (dim2 * dim3 * i + dim3 * j + k).
Proof.
  unfold array3DIndex, ULong.add, ULong.mul, ULong.wrap.
  rewrite Z.mul_mod_idemp_l by discriminate.
  rewrite <- Z.add_mod by discriminate.
  now rewrite Z.add_mod_idemp_l by discriminate.
Qed.

Lemma array2DIndex_mod i j dim1 dim2 :
  array2DIndex i j dim1 dim2 = ULong.wrap (dim2 * i + j).
Proof.
  unfold array2DIndex, ULong.add, ULong.mul, ULong.wrap.
  now rewrite Z.add_mod_idemp_l by discriminate.
Qed.

Lemma array3DIndex_range i j k dim1 dim2 dim3 :
  ULong.in_range (array3DIndex i j k dim1 dim2 dim3).
Proof. rewrite array3DIndex_mod. apply wrap_range. Qed.

Lemma array2DIndex_range i j dim1 dim2 :
  ULong.in_range (array2DIndex i j dim1 dim2).
Proof. rewrite array2DIndex_mod. apply wrap_range. Qed.

(** The exact row-major position of a valid index lies inside the buffer. *)
Lemma position3D_bound i j k d0 d1 d2 :
  0 <= i < d0 -> 0 <= j < d1 -> 0 <= k < d2 ->
  0 <= d1 * d2 * i + d2 * j + k < d0 * d1 * d2.
Proof.
  intros Hi Hj Hk.
  assert (Hb : 0 < d1 * d2) by (apply Z.mul_pos_pos; lia).
  assert (H1 : 0 <= d1 * d2 * i) by (apply Z.mul_nonneg_nonneg; lia).
  assert (H2 : 0 <= d2 * j) by (apply Z.mul_nonneg_nonneg; lia).
  assert (H3 : d2 * j + k < d1 * d2) by nia.
  assert (H4 : d1 * d2 * (i + 1) <= d1 * d2 * d0) by (apply Z.mul_le_mono_nonneg_l; lia).
  split; [lia|].
  replace (d0 * d1 * d2) with (d1 * d2 * d0) by ring.
  replace (d1 * d2 * (i + 1)) with (d1 * d2 * i + d1 * d2) in H4 by ring.
  lia.
Qed.

Lemma position2D_bound i j d0 d1 :
  0 <= i < d0 -> 0 <= j < d1 -> 0 <= d1 * i + j < d0 * d1.
Proof.
  intros Hi Hj.
  assert (H1 : 0 <= d1 * i) by (apply Z.mul_nonneg_nonneg; lia).
  assert (H4 : d1 * (i + 1) <= d1 * d0) by (apply Z.mul_le_mono_nonneg_l; lia).
  split; [lia|].
  replace (d0 * d1) with (d1 * d0) by ring.
  replace (d1 * (i + 1)) with (d1 * i + d1) in H4 by ring.
  lia.
Qed.

(** Without overflow the helpers compute the exact row-major position. *)
Lemma array3DIndex_exact i j k d0 d1 d2 :
  0 <= i < d0 -> 0 <= j < d1 -> 0 <= k < d2 -> d0 * d1 * d2 <= ULong.modulus ->
  array3DIndex i j k d0 d1 d2 = d1 * d2 * i + d2 * j + k.
Proof.
  intros Hi Hj Hk Hfit. rewrite array3DIndex_mod. apply wrap_small.
  pose proof (position3D_bound i j k d0 d1 d2 Hi Hj Hk).
  unfold ULong.in_range. lia.
Qed.

Lemma array2DIndex_exact i j d0 d1 :
  0 <= i < d0 -> 0 <= j < d1 -> d0 * d1 <= ULong.modulus ->
  array2DIndex i j d0 d1 = d1 * i + j.
Proof.
  intros Hi Hj Hfit. rewrite array2DIndex_mod. apply wrap_small.
  pose proof (position2D_bound i j d0 d1 Hi Hj).
  unfold ULong.in_range. lia.
Qed.

Lemma array3DIndex_below i j k d0 d1 d2 :
  0 <= i < d0 -> 0 <= j < d1 -> 0 <= k < d2 -> d0 * d1 * d2 <= ULong.modulus ->
  0 <= array3DIndex i j k d0 d1 d2 < d0 * d1 * d2.
Proof.
  intros Hi Hj Hk Hfit. rewrite array3DIndex_exact by assumption.
  now apply position3D_bound.
Qed.

Lemma array2DIndex_below i j d0 d1 :
  0 <= i < d0 -> 0 <= j < d1 -> d0 * d1 <= ULong.modulus ->
  0 <= array2DIndex i j d0 d1 < d0 * d1.
Proof.
  intros Hi Hj Hfit. rewrite array2DIndex_exact by assumption.
  now apply position2D_bound.
Qed.

Lemma unflatten3D_exact i j k d0 d1 d2 :
  0 <= i -> 0 <= j < d1 -> 0 <= k < d2 ->
  unflatten [d0; d1; d2] (d1 * d2 * i + d2 * j + k) = [i; j; k].
Proof.
  intros Hi Hj Hk. cbn [unflatten product fold_right].
  rewrite !Z.mul_1_r, Z.div_1_r.
  assert (Hq : (d1 * d2 * i + d2 * j + k) / (d1 * d2) = i).
  { symmetry. apply Z.div_unique with (r := d2 * j + k); [left; nia | lia]. }
  assert (Hr : (d1 * d2 * i + d2 * j + k) mod (d1 * d2) = d2 * j + k).
  { symmetry. apply Z.mod_unique with (q := i); [left; nia | lia]. }
  rewrite Hq, Hr.
  assert (Hq' : (d2 * j + k) / d2 = j).
  { symmetry. apply Z.div_unique with (r := k); [left; lia | lia]. }
  assert (Hr' : (d2 * j + k) mod d2 = k).
  { symmetry. apply Z.mod_unique with (q := j); [left; lia | lia]. }
  now rewrite Hq', Hr'.
Qed.

Lemma unflatten2D_exact i j d0 d1 :
  0 <= i -> 0 <= j < d1 ->
  unflatten [d0; d1] (d1 * i + j) = [i; j].
Proof.
  intros Hi Hj. cbn [unflatten product fold_right].
  rewrite !Z.mul_1_r, Z.div_1_r.
  assert (Hq : (d1 * i + j) / d1 = i).
  { symmetry. apply Z.div_unique with (r := j); [left; lia | lia]. }
  assert (Hr : (d1 * i + j) mod d1 = j).
  { symmetry. apply Z.mod_unique with (q := i); [left; lia | lia]. }
  now rewrite Hq, Hr.
Qed.

(** ** Rules for computations *)

Lemma post_ret {A} (a : A) (Q : A -> Prop) : Q a -> post (ret a) Q.
Proof. intros H out. exact H. Qed.

Lemma post_stop {A} (f : fault) (Q : A -> Prop) :
  (forall index size, f <> OutOfBounds index size) -> post (stop f) Q.
Proof.
  intros H out. cbn. destruct f; auto. now apply (H index size).
Qed.

Lemma post_bind {A B} (c : M A) (k : A -> M B) (P : A -> Prop) (Q : B -> Prop) :
  post c P -> (forall a, P a -> post (k a) Q) -> post (c' <- c ;; k c') Q.
Proof.
  intros Hc Hk out. specialize (Hc out). unfold bind.
  destruct (c out) as [[a | f] out']; cbn in *.
  - apply (Hk a Hc out').
  - exact Hc.
Qed.

Lemma post_weaken {A} (c : M A) (P Q : A -> Prop) :
  post c P -> (forall a, P a -> Q a) -> post c Q.
Proof.
  intros Hc HPQ out. specialize (Hc out).
  destruct (fst (c out)) as [a | f]; auto.
Qed.

Lemma post_print t (Q : unit -> Prop) : Q tt -> post (print t) Q.
Proof. intros H out. exact H. Qed.

Lemma post_emit ts (Q : unit -> Prop) : Q tt -> post (emit ts) Q.
Proof. intros H out. exact H. Qed.

Lemma post_invoke {A} (c : call A) (Q : A -> Prop) :
  (forall a, c = Returns a -> Q a) -> post (invoke c) Q.
Proof.
  intros H out. destruct c as [a | e]; cbn; auto.
Qed.

Lemma post_assert (cond : bool) (Q : unit -> Prop) :
  (cond = true -> Q tt) -> post (SOFA_ASSERT cond) Q.
Proof.
  intros H out. destruct cond; cbn; auto.
Qed.

Lemma post_vector_at {A} (v : list A) (index : Z) (Q : A -> Prop) :
  0 <= index < Z.of_nat (List.length v) ->
  (forall x, nth_error v (Z.to_nat index) = Some x -> Q x) ->
  post (vector_at v index) Q.
Proof.
  intros Hi HQ out. unfold vector_at.
  destruct (Z.ltb_spec index 0) as [Hneg | _]; [lia|].
  destruct (nth_error v (Z.to_nat index)) as [x |] eqn:E; cbn.
  - now apply HQ.
  - apply nth_error_None in E. lia.
Qed.

Lemma post_vector_resize (n : Z) :
  0 <= n -> post (vector_resize n) (fun v => Z.of_nat (List.length v) = n).
Proof.
  intros Hn out. unfold vector_resize.
  destruct (n <=? vector_max_size); cbn; [|exact I].
  rewrite repeat_length. lia.
Qed.

Lemma post_store_through (pos vals : vector) :
  post (store_through pos vals) (fun p => List.length p = List.length pos).
Proof.
  intros out. unfold store_through.
  destruct (Nat.leb_spec (List.length vals) (List.length pos)); cbn; [|exact I].
  rewrite length_app, length_skipn. lia.
Qed.

Lemma post_for_loop_from (body : Z -> M unit) (count : nat) :
  forall start,
    (forall i, start <= i < start + Z.of_nat count -> post (body i) (fun _ => True)) ->
    post (for_loop_from start count body) (fun _ => True).
Proof.
  induction count as [| count IH]; intros start H.
  - now apply post_ret.
  - cbn [for_loop_from]. apply post_bind with (P := fun _ => True).
    + apply H. lia.
    + intros _ _. apply IH. intros i Hi. apply H. lia.
Qed.

Lemma post_for_loop (bound : Z) (body : Z -> M unit) :
  (forall i, 0 <= i < bound -> post (body i) (fun _ => True)) ->
  post (for_loop bound body) (fun _ => True).
Proof.
  intros H. apply post_for_loop_from. intros i Hi. apply H. lia.
Qed.

Lemma post_in_bounds {A} (c : M A) (Q : A -> Prop) : post c Q -> in_bounds c.
Proof.
  intros H out index size E. specialize (H out). now rewrite E in H.
Qed.

(** ** Loops *)

Lemma zrange_succ (start : Z) (count : nat) :
  zrange start (S count) = start :: zrange (start + 1) count.
Proof.
  unfold zrange. cbn [seq map]. rewrite Z.add_0_r. f_equal.
  rewrite <- seq_shift, map_map. apply map_ext. intros n. lia.
Qed.

Lemma in_zrange (start : Z) (count : nat) (i : Z) :
  In i (zrange start count) <-> start <= i < start + Z.of_nat count.
Proof.
  unfold zrange. rewrite in_map_iff. split.
  - intros (n & <- & Hn). apply in_seq in Hn. lia.
  - intros H. exists (Z.to_nat (i - start)). split; [lia|]. apply in_seq. lia.
Qed.

Lemma flat_map_map {A B C} (g : B -> list C) (h : A -> B) (l : list A) :
  flat_map g (map h l) = flat_map (fun a => g (h a)) l.
Proof.
  induction l as [| a l IH]; cbn; [reflexivity | now rewrite IH].
Qed.

Lemma flat_map_nested {A B C} (g : B -> list C) (h : A -> list B) (l : list A) :
  flat_map g (flat_map h l) = flat_map (fun a => flat_map g (h a)) l.
Proof.
  induction l as [| a l IH]; cbn; [reflexivity|].
  now rewrite flat_map_app, IH.
Qed.

Lemma flat_map_agree {A B} (f g : A -> list B) (l : list A) :
  (forall a, In a l -> f a = g a) -> flat_map f l = flat_map g l.
Proof.
  induction l as [| a l IH]; intros H; cbn; [reflexivity|].
  rewrite (H a) by now left. f_equal. apply IH. intros b Hb. apply H. now right.
Qed.

(** A loop whose turns all finish prints what the turns print, in order. *)
Lemma for_loop_from_done (body : Z -> M unit) (f : Z -> ostream) (count : nat) :
  forall start out,
    (forall i, start <= i < start + Z.of_nat count ->
               forall o, body i o = (Done tt, o ++ f i)) ->
    for_loop_from start count body out
    = (Done tt, out ++ flat_map f (zrange start count)).
Proof.
  induction count as [| count IH]; intros start out H.
  - cbn. now rewrite app_nil_r.
  - rewrite zrange_succ. cbn [for_loop_from flat_map]. unfold bind.
    rewrite (H start) by lia. rewrite IH by (intros i Hi; apply H; lia).
    now rewrite <- app_assoc.
Qed.

Lemma for_loop_done (bound : Z) (body : Z -> M unit) (f : Z -> ostream) (out : ostream) :
  (forall i, 0 <= i < bound -> forall o, body i o = (Done tt, o ++ f i)) ->
  for_loop bound body out
  = (Done tt, out ++ flat_map f (zrange 0 (Z.to_nat bound))).
Proof.
  intros H. apply for_loop_from_done. intros i Hi. apply H. lia.
Qed.

(** A loop whose first turn stops at a fault stops there. *)
Lemma for_loop_first_fault (bound : Z) (body : Z -> M unit) (out out' : ostream)
      (f : fault) :
  0 < bound -> body 0 out = (Fault f, out') ->
  for_loop bound body out = (Fault f, out').
Proof.
  intros Hb H. unfold for_loop.
  replace (Z.to_nat bound) with (S (Z.to_nat (bound - 1))) by lia.
  cbn [for_loop_from]. unfold bind. now rewrite H.
Qed.

(** When every turn either always finishes or always reads out of bounds,
    so does the loop: it finishes exactly when all its turns do. *)
Lemma for_loop_from_verdict (body : Z -> M unit) (count : nat) :
  forall start,
    (forall i, start <= i < start + Z.of_nat count ->
               always_done (body i) \/ always_oob (body i)) ->
    (always_done (for_loop_from start count body)
     /\ forall i, start <= i < start + Z.of_nat count -> always_done (body i))
    \/ (always_oob (for_loop_from start count body)
        /\ exists i, start <= i < start + Z.of_nat count /\ always_oob (body i)).
Proof.
  induction count as [| count IH]; intros start H.
  - left. split; [intros out; now exists out | intros i Hi; lia].
  - destruct (H start ltac:(lia)) as [Hd | Ho].
    + destruct (IH (start + 1)) as [[Hl Hall] | [Hl (i & Hi & Hbad)]].
      * intros i Hi. apply H. lia.
      * left. split.
        -- intros out. cbn [for_loop_from]. unfold bind.
           destruct (Hd out) as (o1 & ->). apply Hl.
        -- intros i Hi. destruct (Z.eq_dec i start) as [-> | Hne]; [exact Hd|].
           apply Hall. lia.
      * right. split.
        -- intros out. cbn [for_loop_from]. unfold bind.
           destruct (Hd out) as (o1 & ->). apply Hl.
        -- exists i. split; [lia | exact Hbad].
    + right. split.
      * intros out. cbn [for_loop_from]. unfold bind.
        destruct (Ho out) as (index & size & o1 & ->). now exists index, size, o1.
      * exists start. split; [lia | exact Ho].
Qed.

Lemma for_loop_verdict (bound : Z) (body : Z -> M unit) :
  (forall i, 0 <= i < bound -> always_done (body i) \/ always_oob (body i)) ->
  (always_done (for_loop bound body)
   /\ forall i, 0 <= i < bound -> always_done (body i))
  \/ (always_oob (for_loop bound body)
      /\ exists i, 0 <= i < bound /\ always_oob (body i)).
Proof.
  intros H. unfold for_loop.
  destruct (for_loop_from_verdict body (Z.to_nat bound) 0) as [[Hl Hall] | [Hl (i & Hi & Hbad)]].
  - intros i Hi. apply H. lia.
  - left. split; [exact Hl | intros i Hi; apply Hall; lia].
  - right. split; [exact Hl | exists i; split; [lia | exact Hbad]].
Qed.

Lemma done_not_oob (c : M unit) : always_done c -> always_oob c -> False.
Proof.
  intros Hd Ho. destruct (Hd []) as (o1 & E1). destruct (Ho []) as (i & s & o2 & E2).
  congruence.
Qed.

(** ** Reading one element *)

Lemma read_element_inside (pos : vector) (index : Z) (out : ostream) :
  0 <= index < Z.of_nat (List.length pos) ->
  read_element pos index out = (Done tt, out ++ element (at_index pos index)).
Proof.
  intros H. unfold read_element, bind, vector_at, at_index.
  destruct (Z.ltb_spec index 0) as [Hneg | _]; [lia|].
  destruct (nth_error pos (Z.to_nat index)) as [x |] eqn:E.
  - rewrite (nth_error_nth pos _ _ E). cbn. unfold print, element.
    now rewrite <- app_assoc.
  - apply nth_error_None in E. lia.
Qed.

Lemma read_element_outside (pos : vector) (index : Z) (out : ostream) :
  Z.of_nat (List.length pos) <= index ->
  read_element pos index out
  = (Fault (OutOfBounds index (Z.of_nat (List.length pos))), out).
Proof.
  intros H. unfold read_element, bind, vector_at.
  destruct (Z.ltb_spec index 0) as [Hneg | _]; [lia|].
  destruct (nth_error pos (Z.to_nat index)) as [x |] eqn:E; [|reflexivity].
  assert (nth_error pos (Z.to_nat index) <> None) as Hx by congruence.
  apply nth_error_Some in Hx. lia.
Qed.

Lemma read_element_verdict (pos : vector) (index : Z) :
  0 <= index ->
  (index < Z.of_nat (List.length pos) /\ always_done (read_element pos index))
  \/ (Z.of_nat (List.length pos) <= index /\ always_oob (read_element pos index)).
Proof.
  intros H. destruct (Z.lt_ge_cases index (Z.of_nat (List.length pos))) as [Hlt | Hge].
  - left. split; [exact Hlt|]. intros out. rewrite read_element_inside by lia. eauto.
  - right. split; [exact Hge|]. intros out. rewrite read_element_outside by lia. eauto.
Qed.

Lemma post_read_element (pos : vector) (index : Z) :
  0 <= index < Z.of_nat (List.length pos) ->
  post (read_element pos index) (fun _ => True).
Proof.
  intros H out. now rewrite read_element_inside.
Qed.

(** ** The loop nests *)

Lemma print_values2D_unfold (pos : vector) (d0 d1 : Z) :
  print_values2D pos d0 d1
  = for_loop d0 (fun i => for_loop d1 (fun j =>
      read_element pos (array2DIndex i j d0 d1))).
Proof. reflexivity. Qed.

Lemma print_values3D_unfold (pos : vector) (d0 d1 d2 : Z) :
  print_values3D pos d0 d1 d2
  = for_loop d0 (fun i => for_loop d1 (fun j => for_loop d2 (fun k =>
      read_element pos (array3DIndex i j k d0 d1 d2)))).
Proof. reflexivity. Qed.

(** A nest that stays inside its buffer prints the elements met by the
    traversal, in the order of the traversal. *)
Lemma print_values2D_done (pos : vector) (d0 d1 : Z) (out : ostream) :
  (forall i j, 0 <= i < d0 -> 0 <= j < d1 ->
               array2DIndex i j d0 d1 < Z.of_nat (List.length pos)) ->
  print_values2D pos d0 d1 out
  = (Done tt, out ++ flat_map (fun index => element (at_index pos index))
                              (traversal2D d0 d1)).
Proof.
  intros H. rewrite print_values2D_unfold.
  rewrite for_loop_done with
    (f := fun i => flat_map (fun j => element (at_index pos (array2DIndex i j d0 d1)))
                            (zrange 0 (Z.to_nat d1))).
  - unfold traversal2D. rewrite flat_map_nested. do 2 f_equal.
    apply flat_map_agree. intros i _. now rewrite flat_map_map.
  - intros i Hi o. apply for_loop_done. intros j Hj o'.
    apply read_element_inside. split; [apply array2DIndex_range | now apply H].
Qed.

Lemma print_values3D_done (pos : vector) (d0 d1 d2 : Z) (out : ostream) :
  (forall i j k, 0 <= i < d0 -> 0 <= j < d1 -> 0 <= k < d2 ->
                 array3DIndex i j k d0 d1 d2 < Z.of_nat (List.length pos)) ->
  print_values3D pos d0 d1 d2 out
  = (Done tt, out ++ flat_map (fun index => element (at_index pos index))
                              (traversal3D d0 d1 d2)).
Proof.
  intros H. rewrite print_values3D_unfold.
  rewrite for_loop_done with
    (f := fun i => flat_map (fun j =>
                     flat_map (fun k => element (at_index pos (array3DIndex i j k d0 d1 d2)))
                              (zrange 0 (Z.to_nat d2)))
                            (zrange 0 (Z.to_nat d1))).
  - unfold traversal3D. rewrite flat_map_nested. do 2 f_equal.
    apply flat_map_agree. intros i _. rewrite flat_map_nested.
    apply flat_map_agree. intros j _. now rewrite flat_map_map.
  - intros i Hi o. apply for_loop_done. intros j Hj o'.
    apply for_loop_done. intros k Hk o''.
    apply read_element_inside. split; [apply array3DIndex_range | now apply H].
Qed.

(** One level of a nest: the verdicts of the turns decide the loop. *)
Lemma nest_verdict (bound : Z) (inner : Z -> M unit) (P Q : Z -> Prop) :
  (forall i, 0 <= i < bound ->
             (always_done (inner i) /\ P i) \/ (always_oob (inner i) /\ Q i)) ->
  (always_done (for_loop bound inner) /\ forall i, 0 <= i < bound -> P i)
  \/ (always_oob (for_loop bound inner) /\ exists i, 0 <= i < bound /\ Q i).
Proof.
  intros H.
  destruct (for_loop_verdict bound inner) as [[Hl Hall] | [Hl (i & Hi & Hbad)]].
  - intros i Hi. destruct (H i Hi) as [[Hd _] | [Ho _]]; [now left | now right].
  - left. split; [exact Hl|]. intros i Hi.
    destruct (H i Hi) as [[_ HP] | [Ho _]]; [exact HP|].
    destruct (done_not_oob _ (Hall i Hi) Ho).
  - right. split; [exact Hl|]. exists i. split; [exact Hi|].
    destruct (H i Hi) as [[Hd _] | [_ HQ]]; [|exact HQ].
    destruct (done_not_oob _ Hd Hbad).
Qed.

Lemma print_values3D_verdict (pos : vector) (d0 d1 d2 : Z) :
  (always_done (print_values3D pos d0 d1 d2)
   /\ forall i j k, 0 <= i < d0 -> 0 <= j < d1 -> 0 <= k < d2 ->
                    array3DIndex i j k d0 d1 d2 < Z.of_nat (List.length pos))
  \/ (always_oob (print_values3D pos d0 d1 d2)
      /\ exists i j k, 0 <= i < d0 /\ 0 <= j < d1 /\ 0 <= k < d2
                       /\ Z.of_nat (List.length pos) <= array3DIndex i j k d0 d1 d2).
Proof.
  rewrite print_values3D_unfold.
  destruct (nest_verdict d0
              (fun i => for_loop d1 (fun j => for_loop d2 (fun k =>
                 read_element pos (array3DIndex i j k d0 d1 d2))))
              (fun i => forall j k, 0 <= j < d1 -> 0 <= k < d2 ->
                 array3DIndex i j k d0 d1 d2 < Z.of_nat (List.length pos))
              (fun i => exists j k, 0 <= j < d1 /\ 0 <= k < d2
                 /\ Z.of_nat (List.length pos) <= array3DIndex i j k d0 d1 d2))
    as [[Hl Hall] | [Hl (i & Hi & j & k & Hj & Hk & Hbad)]].
  - intros i Hi.
    destruct (nest_verdict d1
                (fun j => for_loop d2 (fun k =>
                   read_element pos (array3DIndex i j k d0 d1 d2)))
                (fun j => forall k, 0 <= k < d2 ->
                   array3DIndex i j k d0 d1 d2 < Z.of_nat (List.length pos))
                (fun j => exists k, 0 <= k < d2
                   /\ Z.of_nat (List.length pos) <= array3DIndex i j k d0 d1 d2))
      as [[Hl Hall] | [Hl (j & Hj & k & Hk & Hbad)]].
    + intros j Hj.
      apply (nest_verdict d2
               (fun k => read_element pos (array3DIndex i j k d0 d1 d2))
               (fun k => array3DIndex i j k d0 d1 d2 < Z.of_nat (List.length pos))
               (fun k => Z.of_nat (List.length pos) <= array3DIndex i j k d0 d1 d2)).
      intros k Hk.
      destruct (read_element_verdict pos (array3DIndex i j k d0 d1 d2))
        as [[H1 H2] | [H1 H2]]; [apply array3DIndex_range | now left | now right].
    + left. split; [exact Hl|]. intros j k Hj Hk. now apply Hall.
    + right. split; [exact Hl|]. now exists j, k.
  - left. split; [exact Hl|]. intros i j k Hi Hj Hk. now apply Hall.
  - right. split; [exact Hl|]. now exists i, j, k.
Qed.

Lemma reads_verdict (pos : vector) (bound : Z) :
  (always_done (for_loop bound (read_element pos))
   /\ forall i, 0 <= i < bound -> i < Z.of_nat (List.length pos))
  \/ (always_oob (for_loop bound (read_element pos))
      /\ exists i, 0 <= i < bound /\ Z.of_nat (List.length pos) <= i).
Proof.
  apply (nest_verdict bound (read_element pos)
           (fun i => i < Z.of_nat (List.length pos))
           (fun i => Z.of_nat (List.length pos) <= i)).
  intros i Hi.
  destruct (read_element_verdict pos i) as [[H1 H2] | [H1 H2]];
    [lia | now left | now right].
Qed.

(** The nests stay inside a buffer that has one element per position. *)
Lemma post_print_values2D (pos : vector) (d0 d1 : Z) :
  d0 * d1 <= ULong.modulus -> Z.of_nat (List.length pos) = d0 * d1 ->
  post (print_values2D pos d0 d1) (fun _ => True).
Proof.
  intros Hfit Hlen. rewrite print_values2D_unfold.
  apply post_for_loop. intros i Hi. apply post_for_loop. intros j Hj.
  apply post_read_element. rewrite Hlen. now apply array2DIndex_below.
Qed.

Lemma post_print_values3D (pos : vector) (d0 d1 d2 : Z) :
  d0 * d1 * d2 <= ULong.modulus -> Z.of_nat (List.length pos) = d0 * d1 * d2 ->
  post (print_values3D pos d0 d1 d2) (fun _ => True).
Proof.
  intros Hfit Hlen. rewrite print_values3D_unfold.
  apply post_for_loop. intros i Hi. apply post_for_loop. intros j Hj.
  apply post_for_loop. intros k Hk.
  apply post_read_element. rewrite Hlen. now apply array3DIndex_below.
Qed.

(** ** Row-major order is the linear order *)

Lemma zrange_app (start : Z) (a b : nat) :
  zrange start (a + b) = zrange start a ++ zrange (start + Z.of_nat a) b.
Proof.
  revert start. induction a as [| a IH]; intros start.
  - cbn [Nat.add zrange seq map app]. now rewrite Z.add_0_r.
  - cbn [Nat.add]. rewrite !zrange_succ, IH. cbn [app].
    now replace (start + 1 + Z.of_nat a) with (start + Z.of_nat (S a)) by lia.
Qed.

Lemma zrange_shift (c start : Z) (count : nat) :
  map (fun j => c + j) (zrange start count) = zrange (c + start) count.
Proof.
  unfold zrange. rewrite map_map. apply map_ext. intros n. lia.
Qed.

Lemma rows_concat (c b : Z) (nb na : nat) :
  b = Z.of_nat nb ->
  forall start,
    flat_map (fun i => zrange (c + b * i) nb) (zrange start na)
    = zrange (c + b * start) (na * nb).
Proof.
  intros Hb. induction na as [| na IH]; intros start.
  - reflexivity.
  - rewrite zrange_succ. cbn [flat_map Nat.mul]. rewrite IH, zrange_app.
    now replace (c + b * start + Z.of_nat nb) with (c + b * (start + 1)) by lia.
Qed.

Lemma traversal2D_linear (d0 d1 : Z) :
  0 <= d0 -> 0 <= d1 -> d0 * d1 <= ULong.modulus ->
  traversal2D d0 d1 = zrange 0 (Z.to_nat (d0 * d1)).
Proof.
  intros H0 H1 Hfit. unfold traversal2D.
  rewrite flat_map_agree with (g := fun i => zrange (0 + d1 * i) (Z.to_nat d1)).
  - rewrite rows_concat by lia. rewrite Z2Nat.inj_mul by lia.
    now rewrite Z.mul_0_r.
  - intros i Hi. apply in_zrange in Hi.
    replace (0 + d1 * i) with (d1 * i + 0) by lia. rewrite <- zrange_shift.
    apply map_ext_in. intros j Hj. apply in_zrange in Hj.
    rewrite array2DIndex_exact; lia.
Qed.

Lemma traversal3D_linear (d0 d1 d2 : Z) :
  0 <= d0 -> 0 <= d1 -> 0 <= d2 -> d0 * d1 * d2 <= ULong.modulus ->
  traversal3D d0 d1 d2 = zrange 0 (Z.to_nat (d0 * d1 * d2)).
Proof.
  intros H0 H1 H2 Hfit. unfold traversal3D.
  rewrite flat_map_agree
    with (g := fun i => zrange (0 + d1 * d2 * i) (Z.to_nat d1 * Z.to_nat d2)).
  - rewrite rows_concat by (rewrite Nat2Z.inj_mul; lia).
    rewrite !Z2Nat.inj_mul by (try apply Z.mul_nonneg_nonneg; lia).
    rewrite Z.mul_0_r. f_equal. lia.
  - intros i Hi. apply in_zrange in Hi.
    rewrite flat_map_agree
      with (g := fun j => zrange (d1 * d2 * i + d2 * j) (Z.to_nat d2)).
    + rewrite rows_concat by lia. f_equal. lia.
    + intros j Hj. apply in_zrange in Hj.
      replace (d1 * d2 * i + d2 * j) with (d1 * d2 * i + d2 * j + 0) by lia.
      rewrite <- zrange_shift.
      apply map_ext_in. intros k Hk. apply in_zrange in Hk.
      rewrite array3DIndex_exact; lia.
Qed.

(** ** When a rank-3 nest over 32-bit bounds stays inside a vector *)

Lemma uint_product_small (a b : Z) :
  UInt.in_range a -> UInt.in_range b -> a * b < ULong.modulus.
Proof.
  unfold UInt.in_range. change UInt.modulus with 4294967296.
  change ULong.modulus with (4294967296 * 4294967296). intros Ha Hb. nia.
Qed.

Lemma index3D_all_below_iff (M_ R N len : Z) :
  UInt.in_range M_ -> UInt.in_range R -> UInt.in_range N ->
  0 <= len <= vector_max_size ->
  (forall i j k, 0 <= i < M_ -> 0 <= j < R -> 0 <= k < N ->
                 array3DIndex i j k M_ R N < len)
  <-> M_ * R * N <= len.
Proof.
  intros HM HR HN Hlen.
  assert (Hmax : vector_max_size < ULong.modulus) by reflexivity.
  split.
  - intros H.
    destruct (Z.eq_dec M_ 0) as [-> | HM0]; [lia|].
    destruct (Z.eq_dec R 0) as [-> | HR0]; [lia|].
    destruct (Z.eq_dec N 0) as [-> | HN0]; [lia|].
    unfold UInt.in_range in *.
    destruct (Z.le_gt_cases (M_ * R * N) ULong.modulus) as [Hfit | Hwrap].
    + specialize (H (M_ - 1) (R - 1) (N - 1) ltac:(lia) ltac:(lia) ltac:(lia)).
      rewrite array3DIndex_exact in H by lia.
      replace (R * N * (M_ - 1) + N * (R - 1) + (N - 1)) with (M_ * R * N - 1) in H by ring.
      lia.
    + exfalso.
      pose proof (uint_product_small R N HR HN) as HRN.
      assert (HRNpos : 0 < R * N) by (apply Z.mul_pos_pos; lia).
      set (q := ULong.modulus / (R * N)).
      assert (Hq1 : R * N * q <= ULong.modulus)
        by (apply Z.mul_div_le; lia).
      assert (Hq2 : ULong.modulus < R * N * (q + 1)).
      { replace (q + 1) with (Z.succ q) by lia. apply Z.mul_succ_div_gt; lia. }
      assert (Hq0 : 1 <= q).
      { unfold q. apply Z.div_le_lower_bound; lia. }
      assert (HqM : q < M_).
      { destruct (Z.lt_ge_cases q M_) as [? | Hge]; [assumption|].
        assert (R * N * M_ <= R * N * q) by (apply Z.mul_le_mono_nonneg_l; lia).
        replace (R * N * M_) with (M_ * R * N) in * by ring. lia. }
      specialize (H (q - 1) (R - 1) (N - 1) ltac:(lia) ltac:(lia) ltac:(lia)).
      rewrite array3DIndex_mod in H.
      replace (R * N * (q - 1) + N * (R - 1) + (N - 1)) with (R * N * q - 1) in H by ring.
      assert (Hq3 : R * N <= R * N * q).
      { rewrite <- (Z.mul_1_r (R * N)) at 1. apply Z.mul_le_mono_nonneg_l; lia. }
      replace (R * N * (q + 1)) with (R * N * q + R * N) in Hq2 by ring.
      rewrite wrap_small in H by (unfold ULong.in_range; lia).
      change ULong.modulus with 18446744073709551616 in *.
      change vector_max_size with 2305843009213693951 in *.
      lia.
  - intros Hle i j k Hi Hj Hk.
    assert (M_ * R * N <= ULong.modulus) by lia.
    pose proof (array3DIndex_below i j k M_ R N Hi Hj Hk ltac:(assumption)). lia.
Qed.

(** ** The printers, step by step *)

Lemma bind_ext {A B} (c c' : M A) (k k' : A -> M B) :
  (forall o, c o = c' o) -> (forall a o, k a o = k' a o) ->
  forall o, (x <- c ;; k x) o = (x <- c' ;; k' x) o.
Proof.
  intros Hc Hk o. unfold bind. rewrite Hc.
  destruct (c' o) as [[a | f] o']; [apply Hk | reflexivity].
Qed.

Ltac post_steps :=
  repeat (apply post_bind with (P := fun _ => True);
          [ first [ apply post_print | apply post_emit
                  | apply post_assert | apply post_invoke ]; auto
          | intros ? _ ]);
  try (first [ apply post_print | apply post_emit ]; exact I).

Lemma vector_at_0 {A} (x : A) (l : list A) : vector_at (x :: l) 0 = ret x.
Proof. reflexivity. Qed.

Lemma vector_at_1 {A} (x y : A) (l : list A) : vector_at (x :: y :: l) 1 = ret y.
Proof. reflexivity. Qed.

Lemma vector_at_2 {A} (x y z : A) (l : list A) : vector_at (x :: y :: z :: l) 2 = ret z.
Proof. reflexivity. Qed.

Section PrinterSteps.
Context {File Directivity : Type} (lib : SofaLib File Directivity) (theFile : File).

Lemma print_type_and_units_run (name c u : string) (out : ostream) :
  GetPosition lib theFile name = Returns (true, c, u) ->
  print_type_and_units lib theFile name out = (Done tt, out ++ header name c u).
Proof.
  intros H. unfold print_type_and_units, bind. rewrite H. cbn.
  unfold header, print. now rewrite <- !app_assoc.
Qed.

Lemma post_print_type_and_units (name : string) :
  post (print_type_and_units lib theFile name) (fun _ => True).
Proof.
  unfold print_type_and_units.
  apply post_bind with (P := fun _ => True); [apply post_invoke; auto|].
  intros [[ok c] u] _. post_steps.
Qed.

Lemma filled_length (n : Z) (vals : vector) :
  0 <= n -> Z.of_nat (List.length vals) <= n ->
  Z.of_nat (List.length (filled n vals)) = n.
Proof.
  intros Hn Hv. unfold filled. rewrite length_app, length_skipn, repeat_length. lia.
Qed.

Lemma print_rank2_run (name label : string) (d0 d1 : Z) (ok : bool) (vals : vector)
      (out : ostream) :
  ULong.mul d0 d1 <= vector_max_size ->
  GetPosition2D lib theFile name d0 d1 = Returns (ok, vals) ->
  Z.of_nat (List.length vals) <= ULong.mul d0 d1 ->
  print_rank2 lib theFile name label [d0; d1] out
  = print_values2D (filled (ULong.mul d0 d1) vals) d0 d1
                   (out ++ [Padded label; Text " = "]).
Proof.
  intros Hmax Hget Hvals. unfold print_rank2.
  rewrite vector_at_0, vector_at_1. unfold bind. cbn [ret].
  unfold vector_resize. destruct (Z.leb_spec (ULong.mul d0 d1) vector_max_size); [|lia].
  cbn [ret]. rewrite Hget. cbn [invoke ret snd]. unfold store_through.
  rewrite repeat_length.
  destruct (Nat.leb_spec (List.length vals) (Z.to_nat (ULong.mul d0 d1))); [|lia].
  cbn [ret print]. now rewrite <- app_assoc.
Qed.

Lemma print_rank3_run (name label : string) (d0 d1 d2 : Z) (ok : bool) (vals : vector)
      (out : ostream) :
  ULong.mul (ULong.mul d0 d1) d2 <= vector_max_size ->
  GetPosition3D lib theFile name d0 d1 d2 = Returns (ok, vals) ->
  Z.of_nat (List.length vals) <= ULong.mul (ULong.mul d0 d1) d2 ->
  print_rank3 lib theFile name label [d0; d1; d2] out
  = print_values3D (filled (ULong.mul (ULong.mul d0 d1) d2) vals) d0 d1 d2
                   (out ++ [Padded label; Text " = "]).
Proof.
  intros Hmax Hget Hvals. unfold print_rank3.
  rewrite vector_at_0, vector_at_1, vector_at_2. unfold bind. cbn [ret].
  unfold vector_resize.
  destruct (Z.leb_spec (ULong.mul (ULong.mul d0 d1) d2) vector_max_size); [|lia].
  cbn [ret]. rewrite Hget. cbn [invoke ret snd]. unfold store_through.
  rewrite repeat_length.
  destruct (Nat.leb_spec (List.length vals) (Z.to_nat (ULong.mul (ULong.mul d0 d1) d2)));
    [|lia].
  cbn [ret print]. now rewrite <- app_assoc.
Qed.

Lemma post_print_rank2 (name label : string) (dims : list Z) :
  List.length dims = 2%nat -> dims_fit dims ->
  post (print_rank2 lib theFile name label dims) (fun _ => True).
Proof.
  intros Hlen [Hpos Hfit].
  destruct dims as [| d0 [| d1 [| ? ?]]]; try discriminate.
  inversion Hpos as [| ? ? H0 Hpos']; subst. inversion Hpos' as [| ? ? H1 _]; subst.
  cbn [product fold_right] in Hfit. rewrite Z.mul_1_r in Hfit.
  assert (H01 : 0 <= d0 * d1) by (apply Z.mul_nonneg_nonneg; lia).
  assert (Hsize : ULong.mul d0 d1 = d0 * d1) by (apply wrap_small; split; lia).
  unfold print_rank2. rewrite vector_at_0, vector_at_1.
  apply post_bind with (P := fun d => d = d0); [now apply post_ret | intros ? ->].
  apply post_bind with (P := fun d => d = d1); [now apply post_ret | intros ? ->].
  apply post_bind with (P := fun pos => Z.of_nat (List.length pos) = d0 * d1).
  { eapply post_weaken; [apply post_vector_resize; lia|]. cbn. intros pos Hp. lia. }
  intros pos Hpos0.
  apply post_bind with (P := fun _ => True); [apply post_invoke; auto | intros got _].
  apply post_bind with (P := fun p => Z.of_nat (List.length p) = d0 * d1).
  { eapply post_weaken; [apply post_store_through|]. cbn. intros p Hp. lia. }
  intros p Hp. post_steps. apply post_print_values2D; [lia | exact Hp].
Qed.

Lemma post_print_rank3 (name label : string) (dims : list Z) :
  List.length dims = 3%nat -> dims_fit dims ->
  post (print_rank3 lib theFile name label dims) (fun _ => True).
Proof.
  intros Hlen [Hpos Hfit].
  destruct dims as [| d0 [| d1 [| d2 [| ? ?]]]]; try discriminate.
  inversion Hpos as [| ? ? H0 Hpos']; subst. inversion Hpos' as [| ? ? H1 Hpos'']; subst.
  inversion Hpos'' as [| ? ? H2 _]; subst.
  cbn [product fold_right] in Hfit. rewrite Z.mul_1_r, Z.mul_assoc in Hfit.
  assert (H01 : 0 <= d0 * d1) by (apply Z.mul_nonneg_nonneg; lia).
  assert (H012 : 0 <= d0 * d1 * d2) by (apply Z.mul_nonneg_nonneg; lia).
  assert (Hsize : ULong.mul (ULong.mul d0 d1) d2 = d0 * d1 * d2).
  { unfold ULong.mul, ULong.wrap. rewrite Z.mul_mod_idemp_l by discriminate.
    apply Z.mod_small. lia. }
  unfold print_rank3. rewrite vector_at_0, vector_at_1, vector_at_2.
  apply post_bind with (P := fun d => d = d0); [now apply post_ret | intros ? ->].
  apply post_bind with (P := fun d => d = d1); [now apply post_ret | intros ? ->].
  apply post_bind with (P := fun d => d = d2); [now apply post_ret | intros ? ->].
  apply post_bind with (P := fun pos => Z.of_nat (List.length pos) = d0 * d1 * d2).
  { eapply post_weaken; [apply post_vector_resize; lia|]. cbn. intros pos Hp. lia. }
  intros pos Hpos0.
  apply post_bind with (P := fun _ => True); [apply post_invoke; auto | intros got _].
  apply post_bind with (P := fun p => Z.of_nat (List.length p) = d0 * d1 * d2).
  { eapply post_weaken; [apply post_store_through|]. cbn. intros p Hp. lia. }
  intros p Hp. post_steps. apply post_print_values3D; [lia | exact Hp].
Qed.

Hypothesis reported_dims_fit :
  forall name dims, GetVariableDimensions lib theFile name = Returns dims -> dims_fit dims.

Lemma post_print_rank2_or_rank3 (name label2 label3 : string) :
  post (print_rank2_or_rank3 lib theFile name label2 label3) (fun _ => True).
Proof.
  unfold print_rank2_or_rank3.
  apply post_bind with (P := fun _ => True); [apply post_print_type_and_units | intros _ _].
  apply post_bind with (P := dims_fit);
    [apply post_invoke; apply reported_dims_fit | intros dims Hfit].
  apply post_bind
    with (P := fun _ => List.length dims = 3%nat \/ List.length dims = 2%nat).
  { apply post_assert. intros H. apply orb_true_iff in H.
    destruct H as [H | H]; apply Nat.eqb_eq in H; auto. }
  intros _ Hrank.
  apply post_bind with (P := fun _ => True); [| intros _ _; now apply post_print].
  destruct (Nat.eqb_spec (List.length dims) 2) as [H2 | H2].
  - now apply post_print_rank2.
  - apply post_print_rank3; [lia | exact Hfit].
Qed.

Lemma post_print_rank2_only (name : string) :
  post (print_rank2_only lib theFile name) (fun _ => True).
Proof.
  unfold print_rank2_only.
  apply post_bind with (P := fun _ => True); [apply post_print_type_and_units | intros _ _].
  apply post_bind with (P := dims_fit);
    [apply post_invoke; apply reported_dims_fit | intros dims Hfit].
  apply post_bind with (P := fun _ => List.length dims = 2%nat).
  { apply post_assert. intros H. now apply Nat.eqb_eq in H. }
  intros _ Hrank.
  apply post_bind with (P := fun _ => True); [| intros _ _; now apply post_print].
  now apply post_print_rank2.
Qed.

Lemma post_PrintListener : post (PrintListener lib theFile) (fun _ => True).
Proof.
  unfold PrintListener.
  apply post_bind with (P := fun _ => True); [apply post_print_rank2_only | intros _ _].
  apply post_bind with (P := fun _ => True); [now apply post_print | intros _ _].
  apply post_bind with (P := fun _ => True); [apply post_print_rank2_only | intros _ _].
  apply post_bind with (P := fun _ => True); [now apply post_print | intros _ _].
  apply post_print_rank2_only.
Qed.

End PrinterSteps.

(** ** Whole runs of the printers *)

Lemma bind_done {A B} (c : M A) (k : A -> M B) (out out' : ostream) (a : A) :
  c out = (Done a, out') -> (x <- c ;; k x) out = k a out'.
Proof. intros H. unfold bind. now rewrite H. Qed.

Lemma bind_fault {A B} (c : M A) (k : A -> M B) (out out' : ostream) (f : fault) :
  c out = (Fault f, out') -> (x <- c ;; k x) out = (Fault f, out').
Proof. intros H. unfold bind. now rewrite H. Qed.

Lemma invoke_returns {A} (c : call A) (a : A) (out : ostream) :
  c = Returns a -> invoke c out = (Done a, out).
Proof. now intros ->. Qed.

Section PrinterRuns.
Context {File Directivity : Type} (lib : SofaLib File Directivity) (theFile : File).

Lemma print_rank2_only_run (name c u : string) (d0 d1 : Z) (ok : bool)
      (vals : vector) (out : ostream) :
  GetPosition lib theFile name = Returns (true, c, u) ->
  GetVariableDimensions lib theFile name = Returns [d0; d1] ->
  ULong.mul d0 d1 <= vector_max_size ->
  GetPosition2D lib theFile name d0 d1 = Returns (ok, vals) ->
  Z.of_nat (List.length vals) <= ULong.mul d0 d1 ->
  print_rank2_only lib theFile name out
  = (print_values2D (filled (ULong.mul d0 d1) vals) d0 d1 ;; print Endl)
      (out ++ header name c u ++ [Padded name; Text " = "]).
Proof.
  intros Hinfo Hdims Hmax Hget Hvals. unfold print_rank2_only.
  rewrite (bind_done _ _ _ _ _ (print_type_and_units_run lib theFile name c u out Hinfo)).
  rewrite (bind_done _ _ _ _ _ (invoke_returns _ _ _ Hdims)).
  erewrite bind_done by reflexivity.
  unfold bind. rewrite (print_rank2_run lib theFile name name d0 d1 ok vals) by assumption.
  now rewrite <- app_assoc.
Qed.

Lemma print_rank2_only_rejects (name c u : string) (dims : list Z) (out : ostream) :
  GetPosition lib theFile name = Returns (true, c, u) ->
  GetVariableDimensions lib theFile name = Returns dims ->
  List.length dims <> 2%nat ->
  print_rank2_only lib theFile name out
  = (Fault AssertionFailure, out ++ header name c u).
Proof.
  intros Hinfo Hdims Hrank. unfold print_rank2_only.
  rewrite (bind_done _ _ _ _ _ (print_type_and_units_run lib theFile name c u out Hinfo)).
  rewrite (bind_done _ _ _ _ _ (invoke_returns _ _ _ Hdims)).
  apply bind_fault. apply Nat.eqb_neq in Hrank. now rewrite Hrank.
Qed.

Lemma print_rank2_or_rank3_run2 (name label2 label3 c u : string) (d0 d1 : Z)
      (ok : bool) (vals : vector) (out : ostream) :
  GetPosition lib theFile name = Returns (true, c, u) ->
  GetVariableDimensions lib theFile name = Returns [d0; d1] ->
  ULong.mul d0 d1 <= vector_max_size ->
  GetPosition2D lib theFile name d0 d1 = Returns (ok, vals) ->
  Z.of_nat (List.length vals) <= ULong.mul d0 d1 ->
  print_rank2_or_rank3 lib theFile name label2 label3 out
  = (print_values2D (filled (ULong.mul d0 d1) vals) d0 d1 ;; print Endl)
      (out ++ header name c u ++ [Padded label2; Text " = "]).
Proof.
  intros Hinfo Hdims Hmax Hget Hvals. unfold print_rank2_or_rank3.
  rewrite (bind_done _ _ _ _ _ (print_type_and_units_run lib theFile name c u out Hinfo)).
  rewrite (bind_done _ _ _ _ _ (invoke_returns _ _ _ Hdims)).
  erewrite bind_done by reflexivity.
  cbn [List.length Nat.eqb].
  unfold bind. rewrite (print_rank2_run lib theFile name label2 d0 d1 ok vals) by assumption.
  now rewrite <- app_assoc.
Qed.

Lemma print_rank2_or_rank3_run3 (name label2 label3 c u : string) (d0 d1 d2 : Z)
      (ok : bool) (vals : vector) (out : ostream) :
  GetPosition lib theFile name = Returns (true, c, u) ->
  GetVariableDimensions lib theFile name = Returns [d0; d1; d2] ->
  ULong.mul (ULong.mul d0 d1) d2 <= vector_max_size ->
  GetPosition3D lib theFile name d0 d1 d2 = Returns (ok, vals) ->
  Z.of_nat (List.length vals) <= ULong.mul (ULong.mul d0 d1) d2 ->
  print_rank2_or_rank3 lib theFile name label2 label3 out
  = (print_values3D (filled (ULong.mul (ULong.mul d0 d1) d2) vals) d0 d1 d2 ;; print Endl)
      (out ++ header name c u ++ [Padded label3; Text " = "]).
Proof.
  intros Hinfo Hdims Hmax Hget Hvals. unfold print_rank2_or_rank3.
  rewrite (bind_done _ _ _ _ _ (print_type_and_units_run lib theFile name c u out Hinfo)).
  rewrite (bind_done _ _ _ _ _ (invoke_returns _ _ _ Hdims)).
  erewrite bind_done by reflexivity.
  cbn [List.length Nat.eqb].
  unfold bind. rewrite (print_rank3_run lib theFile name label3 d0 d1 d2 ok vals) by assumption.
  now rewrite <- app_assoc.
Qed.

Lemma print_rank2_or_rank3_rejects (name label2 label3 c u : string) (dims : list Z)
      (out : ostream) :
  GetPosition lib theFile name = Returns (true, c, u) ->
  GetVariableDimensions lib theFile name = Returns dims ->
  List.length dims <> 2%nat -> List.length dims <> 3%nat ->
  print_rank2_or_rank3 lib theFile name label2 label3 out
  = (Fault AssertionFailure, out ++ header name c u).
Proof.
  intros Hinfo Hdims H2 H3. unfold print_rank2_or_rank3.
  rewrite (bind_done _ _ _ _ _ (print_type_and_units_run lib theFile name c u out Hinfo)).
  rewrite (bind_done _ _ _ _ _ (invoke_returns _ _ _ Hdims)).
  apply bind_fault. apply Nat.eqb_neq in H2, H3. now rewrite H2, H3.
Qed.

(** The frequency block and the data blocks, once the accessor has
    returned: the heading, then the reads. *)
Lemma print_frequencies_run (directivity : Directivity) (N : Z) (ok : bool)
      (frequencies : vector) (out : ostream) :
  GetFrequencyValues lib directivity [] = Returns (ok, frequencies) ->
  print_frequencies lib directivity N out
  = (for_loop N (read_element frequencies) ;; print Endl)
      (out ++ [Endl; Text ("Frequency Values (" ++ dquote ++ "N" ++ dquote ++ "): ");
               Endl]).
Proof.
  intros H. unfold print_frequencies, bind at 1 2 3 4. rewrite H.
  cbn [print invoke ret snd]. now rewrite <- !app_assoc.
Qed.

Lemma print_data_run (name : string) (get : vector -> call (bool * vector))
      (M_ R N : Z) (ok : bool) (data : vector) (out : ostream) :
  get [] = Returns (ok, data) ->
  print_data name get M_ R N out
  = print_values3D data M_ R N
      (out ++ [Endl; Text (name ++ ": ["); Unsigned M_; Text "x"; Unsigned R;
               Text "x"; Unsigned N; Text "]"; Endl]).
Proof.
  intros H. unfold print_data, bind. rewrite H.
  cbn [print invoke ret snd]. now rewrite <- !app_assoc.
Qed.

End PrinterRuns.

(** ** The flags of the data accessors *)

Section Flags.
Context {File Directivity : Type} (lib : SofaLib File Directivity) (flag : bool -> bool).

Lemma print_frequencies_flags (directivity : Directivity) (N : Z) (o : ostream) :
  print_frequencies (override_flags flag lib) directivity N o
  = print_frequencies lib directivity N o.
Proof.
  unfold print_frequencies, bind. cbn [override_flags GetFrequencyValues print].
  now destruct (GetFrequencyValues lib directivity []) as [[ok v] | e].
Qed.

Lemma print_data_real_flags (directivity : Directivity) (M_ R N : Z) (o : ostream) :
  print_data "Data.Real" (GetDataReal (override_flags flag lib) directivity) M_ R N o
  = print_data "Data.Real" (GetDataReal lib directivity) M_ R N o.
Proof.
  unfold print_data, bind. cbn [override_flags GetDataReal print].
  now destruct (GetDataReal lib directivity []) as [[ok v] | e].
Qed.

Lemma print_data_imag_flags (directivity : Directivity) (M_ R N : Z) (o : ostream) :
  print_data "Data.Imag" (GetDataImag (override_flags flag lib) directivity) M_ R N o
  = print_data "Data.Imag" (GetDataImag lib directivity) M_ R N o.
Proof.
  unfold print_data, bind. cbn [override_flags GetDataImag print].
  now destruct (GetDataImag lib directivity []) as [[ok v] | e].
Qed.

Ltac same_steps :=
  repeat (cbv zeta; apply bind_ext; [intros; reflexivity | intros]).

Lemma report_flags (filename : string) (o : ostream) :
  report (override_flags flag lib) filename o = report lib filename o.
Proof.
  unfold report. same_steps.
  match goal with |- context [Bool.eqb ?b true] => destruct (Bool.eqb b true) end;
    [| reflexivity].
  same_steps.
  match goal with |- context [Bool.eqb ?b true] => destruct (Bool.eqb b true) end;
    [| reflexivity].
  same_steps.
  apply bind_ext; [apply print_frequencies_flags | intros].
  apply bind_ext; [apply print_data_real_flags | intros].
  apply print_data_imag_flags.
Qed.

Lemma main_flags (argv : list string) :
  main (override_flags flag lib) argv = main lib argv.
Proof.
  destruct argv as [| prog [| arg [| more rest]]]; cbn [main].
  - reflexivity.
  - reflexivity.
  - destruct (is_help arg); [reflexivity|]. now rewrite report_flags.
  - reflexivity.
Qed.

End Flags.

(** ** In bounds, or not *)

Lemma in_bounds_done (c : M unit) : always_done c -> in_bounds c.
Proof.
  intros H out index size E. destruct (H out) as (o & Ho). rewrite Ho in E. discriminate.
Qed.

Lemma oob_not_in_bounds (c : M unit) : always_oob c -> in_bounds c -> False.
Proof.
  intros H Hin. destruct (H []) as (index & size & o & Ho).
  apply (Hin [] index size). now rewrite Ho.
Qed.

Lemma always_done_shift (c c' : M unit) (pre : ostream) :
  (forall out, c out = c' (out ++ pre)) -> always_done c' -> always_done c.
Proof. intros E H out. rewrite E. apply H. Qed.

Lemma always_oob_shift (c c' : M unit) (pre : ostream) :
  (forall out, c out = c' (out ++ pre)) -> always_oob c' -> always_oob c.
Proof. intros E H out. rewrite E. apply H. Qed.

Lemma always_done_then_print (c : M unit) (t : token) :
  always_done c -> always_done (c ;; print t).
Proof.
  intros H out. destruct (H out) as (o & Ho). unfold bind. rewrite Ho.
  now exists (o ++ [t]).
Qed.

Lemma always_oob_then (c k : M unit) : always_oob c -> always_oob (c ;; k).
Proof.
  intros H out. destruct (H out) as (index & size & o & Ho).
  unfold bind. rewrite Ho. eauto.
Qed.

(** ** The reads of the frequency and data blocks *)

Lemma uint_cast_range (x : Z) : UInt.in_range (UInt.cast x).
Proof. apply Z.mod_pos_bound. reflexivity. Qed.

Section DataReads.
Context {File Directivity : Type} (lib : SofaLib File Directivity)
        (directivity : Directivity).

Lemma print_frequencies_in_bounds_iff (N : Z) (ok : bool) (frequencies : vector) :
  GetFrequencyValues lib directivity [] = Returns (ok, frequencies) ->
  0 <= N ->
  in_bounds (print_frequencies lib directivity N)
  <-> N <= Z.of_nat (List.length frequencies).
Proof.
  intros Hget HN.
  pose proof (fun out => print_frequencies_run lib directivity N ok frequencies out Hget)
    as E.
  destruct (reads_verdict frequencies N) as [[Hd Hall] | [Ho (i & Hi & Hbad)]].
  - split.
    + intros _. destruct (Z.eq_dec N 0) as [-> | HN0]; [lia|].
      specialize (Hall (N - 1)). lia.
    + intros _. apply in_bounds_done.
      eapply always_done_shift; [exact E|]. now apply always_done_then_print.
  - split.
    + intros Hin. exfalso. apply (oob_not_in_bounds _ ltac:(
        eapply always_oob_shift; [exact E | now apply always_oob_then]) Hin).
    + intros Hle. lia.
Qed.

Lemma print_frequencies_reads (N : Z) (ok : bool) (frequencies : vector)
      (out : ostream) :
  GetFrequencyValues lib directivity [] = Returns (ok, frequencies) ->
  N <= Z.of_nat (List.length frequencies) ->
  print_frequencies lib directivity N out
  = (Done tt,
     out ++ [Endl; Text ("Frequency Values (" ++ dquote ++ "N" ++ dquote ++ "): "); Endl]
         ++ flat_map (fun index => element (at_index frequencies index))
                     (zrange 0 (Z.to_nat N))
         ++ [Endl]).
Proof.
  intros Hget HN. rewrite (print_frequencies_run lib directivity N ok frequencies out Hget).
  unfold bind. rewrite for_loop_done
    with (f := fun index => element (at_index frequencies index)).
  - unfold print. now rewrite <- !app_assoc.
  - intros i Hi o. apply read_element_inside. lia.
Qed.

Lemma print_data_in_bounds_iff (name : string) (get : vector -> call (bool * vector))
      (M_ R N : Z) (ok : bool) (data : vector) :
  get [] = Returns (ok, data) ->
  UInt.in_range M_ -> UInt.in_range R -> UInt.in_range N ->
  Z.of_nat (List.length data) <= vector_max_size ->
  in_bounds (print_data name get M_ R N)
  <-> M_ * R * N <= Z.of_nat (List.length data).
Proof.
  intros Hget HM HR HN Hmax.
  pose proof (fun out => print_data_run name get M_ R N ok data out Hget) as E.
  pose proof (index3D_all_below_iff M_ R N (Z.of_nat (List.length data))
                HM HR HN ltac:(lia)) as Hiff.
  destruct (print_values3D_verdict data M_ R N)
    as [[Hd Hall] | [Ho (i & j & k & Hi & Hj & Hk & Hbad)]].
  - split.
    + intros _. now apply Hiff.
    + intros _. apply in_bounds_done. eapply always_done_shift; [exact E | exact Hd].
  - split.
    + intros Hin. exfalso. apply (oob_not_in_bounds _ ltac:(
        eapply always_oob_shift; [exact E | exact Ho]) Hin).
    + intros Hle. pose proof (proj2 Hiff Hle i j k Hi Hj Hk). lia.
Qed.

Lemma print_data_reads (name : string) (get : vector -> call (bool * vector))
      (M_ R N : Z) (ok : bool) (data : vector) (out : ostream) :
  get [] = Returns (ok, data) ->
  0 <= M_ -> 0 <= R -> 0 <= N ->
  M_ * R * N <= ULong.modulus ->
  M_ * R * N <= Z.of_nat (List.length data) ->
  print_data name get M_ R N out
  = (Done tt,
     out ++ [Endl; Text (name ++ ": ["); Unsigned M_; Text "x"; Unsigned R;
             Text "x"; Unsigned N; Text "]"; Endl]
         ++ flat_map (fun index => element (at_index data index))
                     (zrange 0 (Z.to_nat (M_ * R * N)))).
Proof.
  intros Hget HM HR HN Hfit Hlen. rewrite (print_data_run name get M_ R N ok data out Hget).
  rewrite print_values3D_done.
  - rewrite traversal3D_linear by assumption. now rewrite <- app_assoc.
  - intros i j k Hi Hj Hk.
    pose proof (array3DIndex_below i j k M_ R N Hi Hj Hk Hfit). lia.
Qed.

End DataReads.

(** * The indexing helpers and the row-major formula *)

(** C1, as the code has it: for every shape and every index triple,
    [array3DIndex] returns [d1*d2*i + d2*j + k] reduced modulo 2^64 and
    [array2DIndex] returns [d1*i + j] reduced modulo 2^64; these are the
    row-major formula of the specification for ranks 3 and 2, reduced
    modulo 2^64, and they are the formula itself whenever its value is an
    [unsigned long]. *)
Theorem array_index_row_major_mod (i j k d0 d1 d2 : Z) :
  array3DIndex i j k d0 d1 d2 = (d1 * d2 * i + d2 * j + k) mod 2 ^ 64
  /\ d1 * d2 * i + d2 * j + k = row_major_formula [d0; d1; d2] [i; j; k]
  /\ array2DIndex i j d0 d1 = (d1 * i + j) mod 2 ^ 64
  /\ d1 * i + j = row_major_formula [d0; d1] [i; j]
  /\ (ULong.in_range (row_major_formula [d0; d1; d2] [i; j; k]) ->
      array3DIndex i j k d0 d1 d2 = row_major_formula [d0; d1; d2] [i; j; k])
  /\ (ULong.in_range (row_major_formula [d0; d1] [i; j]) ->
      array2DIndex i j d0 d1 = row_major_formula [d0; d1] [i; j]).
Proof.
  assert (F3 : d1 * d2 * i + d2 * j + k = row_major_formula [d0; d1; d2] [i; j; k]).
  { cbn [row_major_formula product fold_right]. ring. }
  assert (F2 : d1 * i + j = row_major_formula [d0; d1] [i; j]).
  { cbn [row_major_formula product fold_right]. ring. }
  repeat split; try assumption.
  - apply array3DIndex_mod.
  - apply array2DIndex_mod.
  - intros H. rewrite <- F3 in *. rewrite array3DIndex_mod. now apply wrap_small.
  - intros H. rewrite <- F2 in *. rewrite array2DIndex_mod. now apply wrap_small.
Qed.

(** A run of the statement above on the shape [2,3,4]. *)
Lemma array_index_row_major_mod_witness :
  array3DIndex 1 2 3 2 3 4 = row_major_formula [2; 3; 4] [1; 2; 3]
  /\ array2DIndex 1 2 2 3 = row_major_formula [2; 3] [1; 2].
Proof.
  split.
  - apply (proj1 (proj2 (proj2 (proj2 (proj2 (array_index_row_major_mod 1 2 3 2 3 4)))))).
    vm_compute. split; [discriminate | reflexivity].
  - apply (proj2 (proj2 (proj2 (proj2 (proj2 (array_index_row_major_mod 1 2 3 2 3 4)))))).
    vm_compute. split; [discriminate | reflexivity].
Defined.

(** C1, as stated, fails where the arithmetic wraps: in the shape
    [2^63+1, 2, 1] the valid index (2^63, 0, 0) has row-major position
    2^64, and both helpers return 0 for it. *)
Lemma array_index_wraps :
  valid_index [2 ^ 63 + 1; 2; 1] [2 ^ 63; 0; 0]
  /\ array3DIndex (2 ^ 63) 0 0 (2 ^ 63 + 1) 2 1 = 0
  /\ array3DIndex (2 ^ 63) 0 0 (2 ^ 63 + 1) 2 1 <> 2 * 1 * 2 ^ 63 + 1 * 0 + 0
  /\ array3DIndex (2 ^ 63) 0 0 (2 ^ 63 + 1) 2 1
     <> row_major_formula [2 ^ 63 + 1; 2; 1] [2 ^ 63; 0; 0]
  /\ array2DIndex (2 ^ 63) 0 (2 ^ 63 + 1) 2 <> 2 * 2 ^ 63 + 0
  /\ array2DIndex (2 ^ 63) 0 (2 ^ 63 + 1) 2
     <> row_major_formula [2 ^ 63 + 1; 2] [2 ^ 63; 0].
Proof.
  repeat split; try (vm_compute; congruence).
Qed.

(** C2, as the code has it: for a shape of rank 2 or 3 whose element count
    is at most 2^64 (every dimension is then positive as soon as a valid
    index exists), the flat index of a valid multi-index decodes back to
    that multi-index, lies in [0, d0*...*dn-1), and is the flat index of
    no other valid multi-index. *)
Theorem flatten_unflatten_roundtrip (shape index : list Z) :
  (List.length shape = 2 \/ List.length shape = 3)%nat ->
  valid_index shape index ->
  product shape <= ULong.modulus ->
  exists flat,
    flat_index shape index = Some flat
    /\ unflatten shape flat = index
    /\ 0 <= flat < product shape
    /\ forall index',
         valid_index shape index' -> flat_index shape index' = Some flat ->
         index' = index.
Proof.
  intros Hrank Hvalid Hfit.
  destruct Hrank as [Hrank | Hrank].
  - destruct shape as [| d0 [| d1 [| ? ?]]]; try discriminate.
    destruct index as [| i [| j [| ? ?]]]; cbn in Hvalid; try tauto.
    destruct Hvalid as (Hi & Hj & _).
    cbn [product fold_right] in Hfit. rewrite Z.mul_1_r in Hfit.
    exists (array2DIndex i j d0 d1). cbn [flat_index].
    rewrite (array2DIndex_exact i j d0 d1) by assumption.
    split; [reflexivity|]. split; [apply unflatten2D_exact; lia|].
    split.
    + cbn [product fold_right]. rewrite Z.mul_1_r. now apply position2D_bound.
    + intros index' Hvalid' Hflat.
      destruct index' as [| i' [| j' [| ? ?]]]; cbn in Hvalid'; try tauto.
      destruct Hvalid' as (Hi' & Hj' & _).
      cbn [flat_index] in Hflat. injection Hflat as Hflat.
      rewrite (array2DIndex_exact i' j' d0 d1) in Hflat by assumption.
      pose proof (unflatten2D_exact i j d0 d1 ltac:(lia) Hj) as E.
      pose proof (unflatten2D_exact i' j' d0 d1 ltac:(lia) Hj') as E'.
      congruence.
  - destruct shape as [| d0 [| d1 [| d2 [| ? ?]]]]; try discriminate.
    destruct index as [| i [| j [| k [| ? ?]]]]; cbn in Hvalid; try tauto.
    destruct Hvalid as (Hi & Hj & Hk & _).
    cbn [product fold_right] in Hfit. rewrite Z.mul_1_r, Z.mul_assoc in Hfit.
    exists (array3DIndex i j k d0 d1 d2). cbn [flat_index].
    rewrite (array3DIndex_exact i j k d0 d1 d2) by assumption.
    split; [reflexivity|]. split; [apply unflatten3D_exact; lia|].
    split.
    + cbn [product fold_right]. rewrite Z.mul_1_r, Z.mul_assoc.
      now apply position3D_bound.
    + intros index' Hvalid' Hflat.
      destruct index' as [| i' [| j' [| k' [| ? ?]]]]; cbn in Hvalid'; try tauto.
      destruct Hvalid' as (Hi' & Hj' & Hk' & _).
      cbn [flat_index] in Hflat. injection Hflat as Hflat.
      rewrite (array3DIndex_exact i' j' k' d0 d1 d2) in Hflat by assumption.
      pose proof (unflatten3D_exact i j k d0 d1 d2 ltac:(lia) Hj Hk) as E.
      pose proof (unflatten3D_exact i' j' k' d0 d1 d2 ltac:(lia) Hj' Hk') as E'.
      congruence.
Qed.

(** The round trip on the shape [2,3,4] at the index (1,2,3). *)
Lemma flatten_unflatten_roundtrip_witness :
  exists flat,
    flat_index [2; 3; 4] [1; 2; 3] = Some flat
    /\ unflatten [2; 3; 4] flat = [1; 2; 3]
    /\ 0 <= flat < product [2; 3; 4]
    /\ forall index',
         valid_index [2; 3; 4] index' -> flat_index [2; 3; 4] index' = Some flat ->
         index' = [1; 2; 3].
Proof.
  apply (flatten_unflatten_roundtrip [2; 3; 4] [1; 2; 3]).
  - right. reflexivity.
  - cbn. lia.
  - vm_compute. discriminate.
Defined.

(** C2, as stated, fails where the arithmetic wraps: the shape [2^63+1, 2]
    has positive dimensions, (2^63, 0) and (0, 0) are valid for it, both
    flatten to 0, and 0 decodes to (0, 0). *)
Lemma flatten_wraps_and_collides :
  0 < 2 ^ 63 + 1 < ULong.modulus /\ 0 < 2 < ULong.modulus
  /\ valid_index [2 ^ 63 + 1; 2] [2 ^ 63; 0]
  /\ valid_index [2 ^ 63 + 1; 2] [0; 0]
  /\ flat_index [2 ^ 63 + 1; 2] [2 ^ 63; 0] = Some 0
  /\ flat_index [2 ^ 63 + 1; 2] [0; 0] = Some 0
  /\ [2 ^ 63; 0] <> [0; 0]
  /\ unflatten [2 ^ 63 + 1; 2] 0 <> [2 ^ 63; 0].
Proof.
  repeat split; try (vm_compute; congruence).
Qed.

(** C8: the value of both helpers does not depend on the first dimension
    size: calls that differ only in [dim1] agree, and a first index at or
    beyond [dim1] is given the flat index that the inner dimensions alone
    determine. *)
Theorem array_index_ignores_dim1 (i j k dim1 dim1' dim2 dim3 : Z) :
  array3DIndex i j k dim1 dim2 dim3 = array3DIndex i j k dim1' dim2 dim3
  /\ array2DIndex i j dim1 dim2 = array2DIndex i j dim1' dim2
  /\ (dim1 <= i ->
      array3DIndex i j k dim1 dim2 dim3 = ULong.wrap (dim2 * dim3 * i + dim3 * j + k)
      /\ array2DIndex i j dim1 dim2 = ULong.wrap (dim2 * i + j)).
Proof.
  split; [reflexivity|]. split; [reflexivity|].
  intros _. split; [apply array3DIndex_mod | apply array2DIndex_mod].
Qed.

(** * The accessors of the specification *)

Section Accessors.
Import SpecModel.

Lemma readTyped_inr (f : OpenFile) (name : string) (count : Z) (vals : list double) :
  readTyped f name count = inr vals ->
  Z.of_nat (List.length vals) = count
  /\ exists v, variables f name = Some v /\ vals = contents v.
Proof.
  unfold readTyped. intros H.
  destruct (variables f name) as [v |]; [|discriminate].
  destruct (Z.eqb_spec (Z.of_nat (List.length (contents v))) count) as [E | E];
    [|discriminate].
  injection H as <-. split; [exact E | now exists v].
Qed.

Lemma readTyped_stored (f : OpenFile) (name : string) (v : StoredVariable) :
  variables f name = Some v ->
  readTyped f name (Z.of_nat (List.length (contents v))) = inr (contents v).
Proof.
  intros H. unfold readTyped. rewrite H. now rewrite Z.eqb_refl.
Qed.

Lemma getData_inr (f : OpenFile) (name : string) (m r n : Z) (buf : FlatBuffer) :
  resolved f "M" = Some m -> resolved f "R" = Some r -> resolved f "N" = Some n ->
  getData f name = inr buf ->
  shape buf = [m; r; n]
  /\ Z.of_nat (List.length (values buf)) = m * r * n
  /\ exists v, variables f name = Some v /\ values buf = contents v.
Proof.
  intros Hm Hr Hn. unfold getData. rewrite Hm, Hr, Hn.
  destruct (reported_size f name) as [size |]; [|discriminate].
  destruct (size =? m * r * n); [|discriminate].
  destruct (readTyped f name (m * r * n)) as [e | vals] eqn:E; [discriminate|].
  intros H. injection H as <-. cbn.
  split; [reflexivity|]. now apply readTyped_inr in E.
Qed.

Lemma getData_mismatch (f : OpenFile) (name : string) (m r n size : Z) :
  resolved f "M" = Some m -> resolved f "R" = Some r -> resolved f "N" = Some n ->
  reported_size f name = Some size -> size <> m * r * n ->
  getData f name = inl ShapeMismatch.
Proof.
  intros Hm Hr Hn Hsize Hne. unfold getData. rewrite Hm, Hr, Hn, Hsize.
  now destruct (Z.eqb_spec size (m * r * n)).
Qed.

Lemma getData_stored (f : OpenFile) (name : string) (m r n : Z) (v : StoredVariable) :
  resolved f "M" = Some m -> resolved f "R" = Some r -> resolved f "N" = Some n ->
  variables f name = Some v ->
  product (reported_shape v) = m * r * n ->
  Z.of_nat (List.length (contents v)) = m * r * n ->
  getData f name = inr {| values := contents v; shape := [m; r; n] |}.
Proof.
  intros Hm Hr Hn Hv Hshape Hlen. unfold getData, reported_size, getVariableShape.
  rewrite Hm, Hr, Hn, Hv. cbn [option_map]. rewrite Hshape, Z.eqb_refl.
  rewrite <- Hlen. now rewrite (readTyped_stored f name v Hv).
Qed.

End Accessors.

(** C3: with M, R and N resolved, a buffer that [getDataReal] or
    [getDataImag] returns has the logical shape [M,R,N], holds exactly
    M*R*N doubles, and these are the stored doubles; whenever the size the
    store reports for the variable differs from M*R*N the access is the
    error [ShapeMismatch]; and a stored variable of that size is returned
    whole. *)
Theorem data_buffer_exact_or_shape_mismatch (f : SpecModel.OpenFile) (m r n : Z) :
  SpecModel.resolved f "M" = Some m ->
  SpecModel.resolved f "R" = Some r ->
  SpecModel.resolved f "N" = Some n ->
  (forall buf,
      SpecModel.getDataReal f = inr buf \/ SpecModel.getDataImag f = inr buf ->
      SpecModel.shape buf = [m; r; n]
      /\ Z.of_nat (List.length (SpecModel.values buf)) = m * r * n)
  /\ (forall buf,
      SpecModel.getDataReal f = inr buf ->
      exists v, SpecModel.variables f "Data.Real" = Some v
                /\ SpecModel.values buf = SpecModel.contents v)
  /\ (forall buf,
      SpecModel.getDataImag f = inr buf ->
      exists v, SpecModel.variables f "Data.Imag" = Some v
                /\ SpecModel.values buf = SpecModel.contents v)
  /\ (forall size,
      SpecModel.reported_size f "Data.Real" = Some size -> size <> m * r * n ->
      SpecModel.getDataReal f = inl SpecModel.ShapeMismatch)
  /\ (forall size,
      SpecModel.reported_size f "Data.Imag" = Some size -> size <> m * r * n ->
      SpecModel.getDataImag f = inl SpecModel.ShapeMismatch)
  /\ (forall v,
      SpecModel.variables f "Data.Real" = Some v ->
      product (SpecModel.reported_shape v) = m * r * n ->
      Z.of_nat (List.length (SpecModel.contents v)) = m * r * n ->
      SpecModel.getDataReal f
      = inr {| SpecModel.values := SpecModel.contents v; SpecModel.shape := [m; r; n] |})
  /\ (forall v,
      SpecModel.variables f "Data.Imag" = Some v ->
      product (SpecModel.reported_shape v) = m * r * n ->
      Z.of_nat (List.length (SpecModel.contents v)) = m * r * n ->
      SpecModel.getDataImag f
      = inr {| SpecModel.values := SpecModel.contents v; SpecModel.shape := [m; r; n] |}).
Proof.
  intros Hm Hr Hn. unfold SpecModel.getDataReal, SpecModel.getDataImag.
  repeat split.
  - destruct H as [H | H]; now destruct (getData_inr f _ m r n buf Hm Hr Hn H).
  - destruct H as [H | H]; now destruct (getData_inr f _ m r n buf Hm Hr Hn H) as (_ & ? & _).
  - intros buf H. now destruct (getData_inr f _ m r n buf Hm Hr Hn H) as (_ & _ & ?).
  - intros buf H. now destruct (getData_inr f _ m r n buf Hm Hr Hn H) as (_ & _ & ?).
  - intros size. now apply getData_mismatch.
  - intros size. now apply getData_mismatch.
  - intros v. now apply getData_stored.
  - intros v. now apply getData_stored.
Qed.

(** On the sample file: [Data.Real] comes back whole with its ten doubles,
    [Data.Imag], reported with eight elements, is a [ShapeMismatch]. *)
Lemma data_buffer_exact_or_shape_mismatch_witness :
  SpecModel.getDataReal sample_file
  = inr {| SpecModel.values := [1; 2; 3; 4; 5; 6; 7; 8; 9; 10]%float;
           SpecModel.shape := [2; 1; 5] |}
  /\ SpecModel.getDataImag sample_file = inl SpecModel.ShapeMismatch.
Proof.
  pose proof (data_buffer_exact_or_shape_mismatch sample_file 2 1 5
                eq_refl eq_refl eq_refl) as (_ & _ & _ & _ & Himag & Hreal & _).
  split.
  - apply (Hreal {| SpecModel.reported_shape := [2; 1; 5];
                    SpecModel.contents := [1; 2; 3; 4; 5; 6; 7; 8; 9; 10]%float |});
      reflexivity.
  - apply (Himag 8); [reflexivity | discriminate].
Defined.

(** C6: when the N dimension resolves to n, a sequence that
    [getFrequencyValues] returns has exactly n doubles and is the stored
    frequency axis, in file order and unmodified; and a stored axis of n
    doubles is returned. *)
Theorem frequency_values_exact (f : SpecModel.OpenFile) (n : Z) :
  SpecModel.resolved f "N" = Some n ->
  (forall vals,
      SpecModel.getFrequencyValues f = inr vals ->
      Z.of_nat (List.length vals) = n
      /\ exists v, SpecModel.variables f "N" = Some v /\ vals = SpecModel.contents v)
  /\ (forall v,
      SpecModel.variables f "N" = Some v ->
      Z.of_nat (List.length (SpecModel.contents v)) = n ->
      SpecModel.getFrequencyValues f = inr (SpecModel.contents v)).
Proof.
  intros Hn. unfold SpecModel.getFrequencyValues. rewrite Hn. split.
  - intros vals. apply readTyped_inr.
  - intros v Hv Hlen. rewrite <- Hlen. now apply readTyped_stored.
Qed.

(** On the sample file, where N = 5: exactly the five stored doubles. *)
Lemma frequency_values_exact_witness :
  SpecModel.getFrequencyValues sample_file = inr [100; 200; 400; 800; 1600]%float.
Proof.
  apply (proj2 (frequency_values_exact sample_file 5 eq_refl)
               {| SpecModel.reported_shape := [5];
                  SpecModel.contents := [100; 200; 400; 800; 1600]%float |});
    reflexivity.
Defined.

(** * The command line *)

(** What the process leaves behind after displaying the help text. *)
Lemma help_displayed :
  handle (DisplayHelp [])
  = {| stdout := [Text "sofainfo prints info about SOFA files"; Endl;
                  Text "    syntax : ./sofainfo [filename]"; Endl];
       stderr := [];
       ended := Exit 0 |}.
Proof. reflexivity. Qed.

Lemma is_help_flags :
  is_help "-h" = true /\ is_help "--help" = true /\ is_help "h" = true
  /\ is_help "--h" = true /\ is_help "-help" = true.
Proof. repeat split. Qed.

Section CommandLine.
Context {File Directivity : Type} (lib : SofaLib File Directivity).

Lemma report_open_throws (file : string) (e : exn) :
  File_open lib file = Throws e ->
  report lib file [] = (Fault (Exception e), []).
Proof.
  intros H. unfold report, bind. now rewrite H.
Qed.

Lemma report_validation_throws (file : string) (theFile : File) (e : exn) :
  File_open lib file = Returns theFile ->
  IsValid lib theFile = Throws e ->
  report lib file [] = (Fault (Exception e), []).
Proof.
  intros H1 H2. unfold report, bind. rewrite H1. cbn. now rewrite H2.
Qed.

Lemma report_not_sofa (file : string) (theFile : File) :
  File_open lib file = Returns theFile ->
  IsValid lib theFile = Returns false ->
  report lib file []
  = (Done tt, [Text file; Text " is not a valid SOFA file"; Endl]).
Proof.
  intros H1 H2. unfold report, bind. rewrite H1. cbn. now rewrite H2.
Qed.

Lemma handle_exception (e : exn) (out : ostream) :
  ended (handle (Fault (Exception e), out)) = Exit 1
  /\ stdout (handle (Fault (Exception e), out)) = out.
Proof. now destruct e. Qed.

End CommandLine.

(** C7: the tool takes one positional argument.  An invocation that
    carries one of the help flags [-h], [--help], [h], [--h], [-help]
    displays the help text and exits with code 0 (and so does every
    invocation that does not have exactly one argument); an invocation
    whose report finishes exits with code 0; an invocation during which an
    exception is raised, be it while opening, validating or reading the
    file, exits with code 1. *)
Theorem main_exit_codes {File Directivity : Type} (lib : SofaLib File Directivity) :
  (is_help "-h" = true /\ is_help "--help" = true /\ is_help "h" = true
   /\ is_help "--h" = true /\ is_help "-help" = true)
  /\ (forall argv flag,
        is_help flag = true -> In flag (tl argv) ->
        main lib argv = handle (DisplayHelp [])
        /\ ended (main lib argv) = Exit 0)
  /\ (forall argv,
        List.length argv <> 2%nat ->
        main lib argv = handle (DisplayHelp []))
  /\ (forall prog file out,
        is_help file = false ->
        report lib file [] = (Done tt, out) ->
        main lib [prog; file] = {| stdout := out; stderr := []; ended := Exit 0 |})
  /\ (forall prog file e out,
        is_help file = false ->
        report lib file [] = (Fault (Exception e), out) ->
        ended (main lib [prog; file]) = Exit 1
        /\ stdout (main lib [prog; file]) = out)
  /\ (forall prog file e,
        is_help file = false ->
        File_open lib file = Throws e ->
        ended (main lib [prog; file]) = Exit 1)
  /\ (forall prog file theFile e,
        is_help file = false ->
        File_open lib file = Returns theFile ->
        IsValid lib theFile = Throws e ->
        ended (main lib [prog; file]) = Exit 1).
Proof.
  split; [exact is_help_flags|].
  split.
  { intros argv flag Hflag Hin.
    destruct argv as [| prog [| arg [| more rest]]]; cbn in Hin;
      try contradiction.
    - destruct Hin as [-> | []]. cbn [main]. rewrite Hflag. now rewrite help_displayed.
    - cbn [main]. now rewrite help_displayed. }
  split.
  { intros argv Hlen.
    destruct argv as [| prog [| arg [| more rest]]]; cbn in Hlen; try reflexivity.
    congruence. }
  split.
  { intros prog file out Hfile Hrun. cbn [main]. now rewrite Hfile, Hrun. }
  split.
  { intros prog file e out Hfile Hrun. cbn [main]. rewrite Hfile, Hrun.
    apply handle_exception. }
  split.
  { intros prog file e Hfile Hopen. cbn [main].
    rewrite Hfile, (report_open_throws lib file e Hopen). apply handle_exception. }
  { intros prog file theFile e Hfile Hopen Hvalid. cbn [main].
    rewrite Hfile, (report_validation_throws lib file theFile e Hopen Hvalid).
    apply handle_exception. }
Qed.

(** The sample libraries: the help flag, a report that finishes, a file
    that cannot be opened, and a file whose data cannot be read. *)
Lemma main_exit_codes_witness :
  ended (main sample_lib ["sofainfo"; "--help"]%string) = Exit 0
  /\ ended (main sample_lib ["sofainfo"; "hrtf.sofa"]%string) = Exit 0
  /\ ended (main sample_lib ["sofainfo"; "missing"]%string) = Exit 1
  /\ ended (main unreadable_lib ["sofainfo"; "hrtf.sofa"]%string) = Exit 1.
Proof.
  pose proof (main_exit_codes sample_lib) as (_ & Hhelp & _ & Hdone & _ & Hopen & _).
  pose proof (main_exit_codes unreadable_lib) as (_ & _ & _ & _ & Hraise & _).
  split; [| split; [| split]].
  - apply (Hhelp ["sofainfo"; "--help"]%string "--help"%string); [reflexivity | now left].
  - rewrite (Hdone "sofainfo"%string "hrtf.sofa"%string
                   (snd (report sample_lib "hrtf.sofa" []))).
    + reflexivity.
    + reflexivity.
    + vm_compute. reflexivity.
  - apply (Hopen "sofainfo"%string "missing"%string (StdException "cannot open"));
      reflexivity.
  - apply (Hraise "sofainfo"%string "hrtf.sofa"%string (StdException "NcException")
                  (snd (report unreadable_lib "hrtf.sofa" []))).
    + reflexivity.
    + vm_compute. reflexivity.
Defined.

(** * Reads of the data vectors in [main] *)

(** C10: [main] does not look at the flags returned by
    [GetFrequencyValues], [GetDataReal] and [GetDataImag]: replacing them
    changes nothing.  It reads [frequencies] at the positions 0..N-1 and
    [data_real], [data_imag] at the positions 0..M*R*N-1, in this order,
    whatever the flags; the reads of a block stay within bounds exactly
    when the call left at least N, respectively M*R*N, elements in its
    vector (a [std::vector<double>] holds at most [vector_max_size]
    elements). *)
Theorem main_reads_need_filled_vectors
        {File Directivity : Type} (lib : SofaLib File Directivity)
        (directivity : Directivity) (m r n : Z) (ok1 ok2 ok3 : bool)
        (frequencies data_real data_imag : vector) :
  GetFrequencyValues lib directivity [] = Returns (ok1, frequencies) ->
  GetDataReal lib directivity [] = Returns (ok2, data_real) ->
  GetDataImag lib directivity [] = Returns (ok3, data_imag) ->
  Z.of_nat (List.length data_real) <= vector_max_size ->
  Z.of_nat (List.length data_imag) <= vector_max_size ->
  (forall flag argv, main (override_flags flag lib) argv = main lib argv)
  /\ (in_bounds (print_frequencies lib directivity (UInt.cast n))
      <-> UInt.cast n <= Z.of_nat (List.length frequencies))
  /\ (in_bounds (print_data "Data.Real" (GetDataReal lib directivity)
                            (UInt.cast m) (UInt.cast r) (UInt.cast n))
      <-> UInt.cast m * UInt.cast r * UInt.cast n <= Z.of_nat (List.length data_real))
  /\ (in_bounds (print_data "Data.Imag" (GetDataImag lib directivity)
                            (UInt.cast m) (UInt.cast r) (UInt.cast n))
      <-> UInt.cast m * UInt.cast r * UInt.cast n <= Z.of_nat (List.length data_imag))
  /\ (UInt.cast n <= Z.of_nat (List.length frequencies) ->
      forall out,
        print_frequencies lib directivity (UInt.cast n) out
        = (Done tt,
           out ++ [Endl; Text ("Frequency Values (" ++ dquote ++ "N" ++ dquote ++ "): ");
                   Endl]
               ++ flat_map (fun index => element (at_index frequencies index))
                           (zrange 0 (Z.to_nat (UInt.cast n)))
               ++ [Endl]))
  /\ (UInt.cast m * UInt.cast r * UInt.cast n <= Z.of_nat (List.length data_real) ->
      forall out,
        print_data "Data.Real" (GetDataReal lib directivity)
                   (UInt.cast m) (UInt.cast r) (UInt.cast n) out
        = (Done tt,
           out ++ [Endl; Text "Data.Real: ["; Unsigned (UInt.cast m); Text "x";
                   Unsigned (UInt.cast r); Text "x"; Unsigned (UInt.cast n);
                   Text "]"; Endl]
               ++ flat_map (fun index => element (at_index data_real index))
                           (zrange 0 (Z.to_nat (UInt.cast m * UInt.cast r * UInt.cast n)))))
  /\ (UInt.cast m * UInt.cast r * UInt.cast n <= Z.of_nat (List.length data_imag) ->
      forall out,
        print_data "Data.Imag" (GetDataImag lib directivity)
                   (UInt.cast m) (UInt.cast r) (UInt.cast n) out
        = (Done tt,
           out ++ [Endl; Text "Data.Imag: ["; Unsigned (UInt.cast m); Text "x";
                   Unsigned (UInt.cast r); Text "x"; Unsigned (UInt.cast n);
                   Text "]"; Endl]
               ++ flat_map (fun index => element (at_index data_imag index))
                           (zrange 0 (Z.to_nat (UInt.cast m * UInt.cast r * UInt.cast n))))).
Proof.
  intros Hfreq Hreal Himag Hmax_real Hmax_imag.
  pose proof (uint_cast_range m) as HM. pose proof (uint_cast_range r) as HR.
  pose proof (uint_cast_range n) as HN.
  assert (Hmax : vector_max_size < ULong.modulus) by reflexivity.
  split; [intros flag argv; apply main_flags|].
  split; [apply (print_frequencies_in_bounds_iff lib directivity _ ok1 _ Hfreq), HN|].
  split; [now apply (print_data_in_bounds_iff _ _ _ _ _ ok2)|].
  split; [now apply (print_data_in_bounds_iff _ _ _ _ _ ok3)|].
  split; [intros Hlen out; now apply (print_frequencies_reads lib directivity _ ok1)|].
  unfold UInt.in_range in *.
  split; intros Hlen out.
  - apply (print_data_reads "Data.Real" (GetDataReal lib directivity) _ _ _ ok2 data_real);
      try assumption; lia.
  - apply (print_data_reads "Data.Imag" (GetDataImag lib directivity) _ _ _ ok3 data_imag);
      try assumption; lia.
Qed.

(** On the sample library (N = 2, M = 2, R = 2, vectors of 2, 8 and 8
    doubles) every block stays in bounds. *)
Lemma main_reads_need_filled_vectors_witness :
  in_bounds (print_frequencies sample_lib tt (UInt.cast 2))
  /\ in_bounds (print_data "Data.Real" (GetDataReal sample_lib tt)
                           (UInt.cast 2) (UInt.cast 2) (UInt.cast 2)).
Proof.
  pose proof (main_reads_need_filled_vectors sample_lib tt 2 2 2 true true true
                [100; 200]%float [1; 2; 3; 4; 5; 6; 7; 8]%float
                [8; 7; 6; 5; 4; 3; 2; 1]%float
                eq_refl eq_refl eq_refl) as H.
  destruct H as (_ & Hf & Hr & _).
  - vm_compute. discriminate.
  - vm_compute. discriminate.
  - split; [apply Hf | apply Hr]; vm_compute; discriminate.
Defined.

(** * The position printers *)

(** C9, as the code has it: when the dimension sizes reported for the
    position variables have a product below 2^64, the buffer that
    [resize] returns has exactly that product as its length, every flat
    index computed inside the loop nests is below it, and none of
    [PrintEmitter], [PrintReceiver], [PrintListener], [PrintSource] reads
    past the end of a vector. *)
Theorem printers_read_in_bounds
        {File Directivity : Type} (lib : SofaLib File Directivity) (theFile : File) :
  (forall name dims,
      GetVariableDimensions lib theFile name = Returns dims -> dims_fit dims) ->
  in_bounds (PrintEmitter lib theFile)
  /\ in_bounds (PrintReceiver lib theFile)
  /\ in_bounds (PrintListener lib theFile)
  /\ in_bounds (PrintSource lib theFile)
  /\ (forall d0 d1,
        dims_fit [d0; d1] ->
        post (vector_resize (ULong.mul d0 d1))
             (fun pos => Z.of_nat (List.length pos) = d0 * d1)
        /\ forall i j, 0 <= i < d0 -> 0 <= j < d1 ->
                       0 <= array2DIndex i j d0 d1 < d0 * d1)
  /\ (forall d0 d1 d2,
        dims_fit [d0; d1; d2] ->
        post (vector_resize (ULong.mul (ULong.mul d0 d1) d2))
             (fun pos => Z.of_nat (List.length pos) = d0 * d1 * d2)
        /\ forall i j k, 0 <= i < d0 -> 0 <= j < d1 -> 0 <= k < d2 ->
                         0 <= array3DIndex i j k d0 d1 d2 < d0 * d1 * d2).
Proof.
  intros Hfit.
  split; [eapply post_in_bounds; now apply post_print_rank2_or_rank3|].
  split; [eapply post_in_bounds; now apply post_print_rank2_or_rank3|].
  split; [eapply post_in_bounds; now apply post_PrintListener|].
  split; [eapply post_in_bounds; now apply post_print_rank2_only|].
  split.
  - intros d0 d1 [Hpos Hprod].
    inversion Hpos as [| ? ? H0 Hpos']; subst. inversion Hpos' as [| ? ? H1 _]; subst.
    cbn [product fold_right] in Hprod. rewrite Z.mul_1_r in Hprod.
    assert (H01 : 0 <= d0 * d1) by (apply Z.mul_nonneg_nonneg; lia).
    split.
    + eapply post_weaken; [apply post_vector_resize; apply wrap_range|].
      cbn. intros pos ->. apply wrap_small. split; lia.
    + intros i j Hi Hj. apply array2DIndex_below; lia.
  - intros d0 d1 d2 [Hpos Hprod].
    inversion Hpos as [| ? ? H0 Hpos']; subst. inversion Hpos' as [| ? ? H1 Hpos'']; subst.
    inversion Hpos'' as [| ? ? H2 _]; subst.
    cbn [product fold_right] in Hprod. rewrite Z.mul_1_r, Z.mul_assoc in Hprod.
    assert (H012 : 0 <= d0 * d1 * d2)
      by (apply Z.mul_nonneg_nonneg; [apply Z.mul_nonneg_nonneg|]; lia).
    split.
    + eapply post_weaken; [apply post_vector_resize; apply wrap_range|].
      cbn. intros pos ->. unfold ULong.mul, ULong.wrap.
      rewrite Z.mul_mod_idemp_l by discriminate. apply Z.mod_small. lia.
    + intros i j k Hi Hj Hk. apply array3DIndex_below; lia.
Qed.

Lemma sample_dims_fit (name : string) (dims : list Z) :
  GetVariableDimensions sample_lib tt name = Returns dims -> dims_fit dims.
Proof.
  cbn [sample_lib GetVariableDimensions].
  destruct (name =? "EmitterPosition")%string; intros H; injection H as <-;
    (split; [repeat constructor; discriminate | reflexivity]).
Defined.

(** The printers on the sample library, whose variables have the
    dimensions [2,3] and [1,3,2]. *)
Lemma printers_read_in_bounds_witness :
  in_bounds (PrintEmitter sample_lib tt)
  /\ in_bounds (PrintReceiver sample_lib tt)
  /\ in_bounds (PrintListener sample_lib tt)
  /\ in_bounds (PrintSource sample_lib tt).
Proof.
  pose proof (printers_read_in_bounds sample_lib tt sample_dims_fit)
    as (He & Hr & Hl & Hs & _).
  now repeat split.
Defined.

(** C9, as stated, fails where the product of the dimension sizes wraps:
    for the reported dimensions [2, 2^63] the buffer is resized to
    2 * 2^63 mod 2^64 = 0 elements, the first index computed in the loop
    nest, 0, is not below that size, and [PrintSource] reads past the end
    of the empty buffer. *)
Lemma print_source_reads_past_the_end :
  GetVariableDimensions huge_lib tt "SourcePosition" = Returns [2; 2 ^ 63]
  /\ ULong.mul 2 (2 ^ 63) = 0
  /\ array2DIndex 0 0 2 (2 ^ 63) = 0
  /\ ~ array2DIndex 0 0 2 (2 ^ 63) < ULong.mul 2 (2 ^ 63)
  /\ fst (PrintSource huge_lib tt []) = Fault (OutOfBounds 0 0)
  /\ ~ in_bounds (PrintSource huge_lib tt).
Proof.
  assert (Hsize : ULong.mul 2 (2 ^ 63) = 0) by reflexivity.
  assert (Hindex : array2DIndex 0 0 2 (2 ^ 63) = 0) by reflexivity.
  assert (Hrun : fst (PrintSource huge_lib tt []) = Fault (OutOfBounds 0 0)).
  { unfold PrintSource.
    rewrite (print_rank2_only_run huge_lib tt "SourcePosition" "cartesian" "metre"
               2 (2 ^ 63) false [] [] eq_refl eq_refl
               ltac:(rewrite Hsize; discriminate) eq_refl
               ltac:(rewrite Hsize; discriminate)).
    rewrite Hsize. change (filled 0 []) with (@nil double).
    erewrite bind_fault; [reflexivity|].
    rewrite print_values2D_unfold.
    apply for_loop_first_fault; [reflexivity|].
    apply for_loop_first_fault; [reflexivity|].
    rewrite Hindex. now rewrite read_element_outside. }
  split; [reflexivity|]. split; [exact Hsize|]. split; [exact Hindex|].
  split; [rewrite Hsize, Hindex; discriminate|].
  split; [exact Hrun|].
  intros H. apply (H [] 0 0 Hrun).
Qed.

(** C4: [PrintEmitter] and [PrintReceiver] look at the rank that the file
    reports for their position variable.  With rank 2 they request the
    rank-2 access, hold a buffer of [dims[0]*dims[1]] doubles and print it
    through [array2DIndex], one position after the other in row-major
    order; with rank 3 they request the rank-3 access, hold a buffer of
    [dims[0]*dims[1]*dims[2]] doubles and print it through [array3DIndex];
    any other rank stops at the assertion.  In the accessor of the
    specification, a request for the rank that the file does not have is
    the error [ShapeMismatch], and a request for the rank it has returns
    the stored buffer. *)
Theorem position_printers_dispatch_on_rank
        {File Directivity : Type} (lib : SofaLib File Directivity) (theFile : File)
        (printer : M unit) (name label2 label3 c u : string) (out : ostream) :
  (printer = PrintEmitter lib theFile /\ name = "EmitterPosition"%string
   /\ label2 = "Emitter Position"%string /\ label3 = "EmitterPosition"%string)
  \/ (printer = PrintReceiver lib theFile /\ name = "ReceiverPosition"%string
      /\ label2 = "ReceiverPosition"%string /\ label3 = "ReceiverPosition"%string) ->
  GetPosition lib theFile name = Returns (true, c, u) ->
  (forall d0 d1 ok vals,
      GetVariableDimensions lib theFile name = Returns [d0; d1] ->
      0 <= d0 -> 0 <= d1 -> d0 * d1 <= vector_max_size ->
      GetPosition2D lib theFile name d0 d1 = Returns (ok, vals) ->
      Z.of_nat (List.length vals) <= d0 * d1 ->
      Z.of_nat (List.length (filled (d0 * d1) vals)) = d0 * d1
      /\ printer out
         = (Done tt,
            out ++ header name c u ++ [Padded label2; Text " = "]
                ++ flat_map (fun index => element (at_index (filled (d0 * d1) vals) index))
                            (traversal2D d0 d1)
                ++ [Endl])
      /\ traversal2D d0 d1 = zrange 0 (Z.to_nat (d0 * d1)))
  /\ (forall d0 d1 d2 ok vals,
      GetVariableDimensions lib theFile name = Returns [d0; d1; d2] ->
      0 <= d0 -> 0 <= d1 -> 0 <= d2 -> d0 * d1 * d2 <= vector_max_size ->
      GetPosition3D lib theFile name d0 d1 d2 = Returns (ok, vals) ->
      Z.of_nat (List.length vals) <= d0 * d1 * d2 ->
      Z.of_nat (List.length (filled (d0 * d1 * d2) vals)) = d0 * d1 * d2
      /\ printer out
         = (Done tt,
            out ++ header name c u ++ [Padded label3; Text " = "]
                ++ flat_map (fun index =>
                               element (at_index (filled (d0 * d1 * d2) vals) index))
                            (traversal3D d0 d1 d2)
                ++ [Endl])
      /\ traversal3D d0 d1 d2 = zrange 0 (Z.to_nat (d0 * d1 * d2)))
  /\ (forall dims,
      GetVariableDimensions lib theFile name = Returns dims ->
      List.length dims <> 2%nat -> List.length dims <> 3%nat ->
      printer out = (Fault AssertionFailure, out ++ header name c u))
  /\ (forall (f : SpecModel.OpenFile) variable requested dims,
      SpecModel.getVariableShape f variable = Some dims ->
      List.length dims <> SpecModel.rank_of requested ->
      SpecModel.getPositionValues f variable requested = inl SpecModel.ShapeMismatch)
  /\ (forall (f : SpecModel.OpenFile) variable requested v,
      SpecModel.variables f variable = Some v ->
      List.length (SpecModel.reported_shape v) = SpecModel.rank_of requested ->
      Z.of_nat (List.length (SpecModel.contents v)) = product (SpecModel.reported_shape v) ->
      SpecModel.getPositionValues f variable requested
      = inr {| SpecModel.values := SpecModel.contents v;
               SpecModel.shape := SpecModel.reported_shape v |}).
Proof.
  intros Hprinter Hinfo.
  assert (E : printer = print_rank2_or_rank3 lib theFile name label2 label3).
  { destruct Hprinter as [(-> & -> & -> & ->) | (-> & -> & -> & ->)]; reflexivity. }
  assert (Hmaxmod : vector_max_size < ULong.modulus) by reflexivity.
  split; [| split; [| split; [| split]]].
  - intros d0 d1 ok vals Hdims H0 H1 Hmax Hget Hvals.
    assert (H01 : 0 <= d0 * d1) by (apply Z.mul_nonneg_nonneg; lia).
    assert (Hsize : ULong.mul d0 d1 = d0 * d1) by (apply wrap_small; split; lia).
    pose proof (filled_length (d0 * d1) vals H01 Hvals) as Hlen.
    split; [exact Hlen|]. split; [| apply traversal2D_linear; lia].
    rewrite E.
    rewrite (print_rank2_or_rank3_run2 lib theFile name label2 label3 c u d0 d1 ok vals
               out Hinfo Hdims ltac:(lia) Hget ltac:(lia)).
    rewrite Hsize. unfold bind. rewrite print_values2D_done.
    + unfold print. now rewrite <- !app_assoc.
    + intros i j Hi Hj. rewrite Hlen. apply array2DIndex_below; lia.
  - intros d0 d1 d2 ok vals Hdims H0 H1 H2 Hmax Hget Hvals.
    assert (H012 : 0 <= d0 * d1 * d2)
      by (apply Z.mul_nonneg_nonneg; [apply Z.mul_nonneg_nonneg|]; lia).
    assert (Hsize : ULong.mul (ULong.mul d0 d1) d2 = d0 * d1 * d2).
    { unfold ULong.mul, ULong.wrap. rewrite Z.mul_mod_idemp_l by discriminate.
      apply Z.mod_small. lia. }
    pose proof (filled_length (d0 * d1 * d2) vals H012 Hvals) as Hlen.
    split; [exact Hlen|]. split; [| apply traversal3D_linear; lia].
    rewrite E.
    rewrite (print_rank2_or_rank3_run3 lib theFile name label2 label3 c u d0 d1 d2 ok vals
               out Hinfo Hdims ltac:(lia) Hget ltac:(lia)).
    rewrite Hsize. unfold bind. rewrite print_values3D_done.
    + unfold print. now rewrite <- !app_assoc.
    + intros i j k Hi Hj Hk. rewrite Hlen. apply array3DIndex_below; lia.
  - intros dims Hdims H2 H3. rewrite E.
    now apply (print_rank2_or_rank3_rejects lib theFile name label2 label3 c u dims).
  - intros f variable requested dims Hshape Hrank.
    unfold SpecModel.getPositionValues. rewrite Hshape.
    apply Nat.eqb_neq in Hrank. now rewrite Hrank.
  - intros f variable requested v Hv Hrank Hlen.
    unfold SpecModel.getPositionValues, SpecModel.getVariableShape.
    rewrite Hv. cbn [option_map]. rewrite Hrank, Nat.eqb_refl.
    rewrite <- Hlen. now rewrite (readTyped_stored f variable v Hv).
Qed.

(** [PrintReceiver] on the sample library, whose [ReceiverPosition] has
    the dimensions [2,3]. *)
Lemma position_printers_dispatch_on_rank_witness :
  PrintReceiver sample_lib tt []
  = (Done tt,
     [] ++ header "ReceiverPosition" "cartesian" "metre"
        ++ [Padded "ReceiverPosition"; Text " = "]
        ++ flat_map (fun index =>
                       element (at_index (filled (2 * 3) [1; 2; 3; 4; 5; 6]%float) index))
                    (traversal2D 2 3)
        ++ [Endl]).
Proof.
  apply (proj1 (position_printers_dispatch_on_rank
                  sample_lib tt (PrintReceiver sample_lib tt)
                  "ReceiverPosition" "ReceiverPosition" "ReceiverPosition"
                  "cartesian" "metre" []
                  (or_intror (conj eq_refl (conj eq_refl (conj eq_refl eq_refl))))
                  eq_refl)
               2 3 true [1; 2; 3; 4; 5; 6]%float);
    try reflexivity; vm_compute; discriminate.
Defined.

(** C5: in the accessor of the specification, a request for rank-2 access
    to a [ListenerPosition] of rank 3 is the error [ShapeMismatch] and
    returns no buffer; and [PrintListener], which only ever makes the
    rank-2 request, stops at its assertion on such a file before it asks
    for or prints any value. *)
Theorem listener_rank3_is_rejected :
  (forall (f : SpecModel.OpenFile) dims,
      SpecModel.getVariableShape f "ListenerPosition" = Some dims ->
      List.length dims = 3%nat ->
      SpecModel.getPositionValues f "ListenerPosition" SpecModel.Access2D
      = inl SpecModel.ShapeMismatch
      /\ forall buf,
           SpecModel.getPositionValues f "ListenerPosition" SpecModel.Access2D
           <> inr buf)
  /\ (forall (File Directivity : Type) (lib : SofaLib File Directivity)
             (theFile : File) c u dims out,
      GetPosition lib theFile "ListenerPosition" = Returns (true, c, u) ->
      GetVariableDimensions lib theFile "ListenerPosition" = Returns dims ->
      List.length dims = 3%nat ->
      PrintListener lib theFile out
      = (Fault AssertionFailure, out ++ header "ListenerPosition" c u)).
Proof.
  split.
  - intros f dims Hshape Hrank.
    assert (E : SpecModel.getPositionValues f "ListenerPosition" SpecModel.Access2D
                = inl SpecModel.ShapeMismatch).
    { unfold SpecModel.getPositionValues. rewrite Hshape. cbn [SpecModel.rank_of].
      now rewrite Hrank. }
    split; [exact E | intros buf; rewrite E; discriminate].
  - intros File Directivity lib theFile c u dims out Hinfo Hdims Hrank.
    unfold PrintListener. apply bind_fault.
    apply (print_rank2_only_rejects lib theFile _ c u dims); [assumption | assumption |].
    rewrite Hrank. discriminate.
Qed.

(** The sample file, whose [ListenerPosition] has the shape [1,3,2]. *)
Lemma listener_rank3_is_rejected_witness :
  SpecModel.getPositionValues sample_file "ListenerPosition" SpecModel.Access2D
  = inl SpecModel.ShapeMismatch.
Proof.
  apply (proj1 listener_rank3_is_rejected sample_file [1; 3; 2]); reflexivity.
Defined.

(** * Further properties of the indexing helpers *)

(** X1: both helpers are strided: one step along the innermost axis moves
    the flat index by one, one step along an outer axis moves it by the
    size of the block inside that axis (all in [unsigned long]
    arithmetic). *)
Theorem array_index_strides (i j k d0 d1 d2 : Z) :
  array2DIndex i (j + 1) d0 d1 = ULong.add (array2DIndex i j d0 d1) 1
  /\ array2DIndex (i + 1) j d0 d1 = ULong.add (array2DIndex i j d0 d1) d1
  /\ array3DIndex i j (k + 1) d0 d1 d2 = ULong.add (array3DIndex i j k d0 d1 d2) 1
  /\ array3DIndex i (j + 1) k d0 d1 d2 = ULong.add (array3DIndex i j k d0 d1 d2) d2
  /\ array3DIndex (i + 1) j k d0 d1 d2
     = ULong.add (array3DIndex i j k d0 d1 d2) (ULong.mul d1 d2).
Proof.
  rewrite !array2DIndex_mod, !array3DIndex_mod.
  unfold ULong.add, ULong.mul, ULong.wrap.
  rewrite !Z.add_mod_idemp_l by discriminate.
  rewrite Z.add_mod_idemp_r by discriminate.
  repeat split; f_equal; ring.
Qed.

(** X2: a rank-3 index is the rank-2 index of [(j, k)] inside plane [i]:
    [array3DIndex] adds [i] planes of [dim2*dim3] elements to
    [array2DIndex(j, k)]; in plane 0 the two helpers agree, and so they do
    on a shape whose last dimension is 1. *)
Theorem array3DIndex_by_planes (i j k d0 d1 d2 e0 : Z) :
  array3DIndex i j k d0 d1 d2
  = ULong.add (ULong.mul (ULong.mul d1 d2) i) (array2DIndex j k e0 d2)
  /\ array3DIndex 0 j k d0 d1 d2 = array2DIndex j k e0 d2
  /\ array3DIndex i j 0 d0 d1 1 = array2DIndex i j e0 d1.
Proof.
  rewrite !array2DIndex_mod, !array3DIndex_mod.
  unfold ULong.add, ULong.mul, ULong.wrap.
  rewrite Z.mul_mod_idemp_l by discriminate.
  rewrite <- Z.add_mod by discriminate.
  repeat split; f_equal; ring.
Qed.

(** * Further properties of the printers *)

Lemma at_index_all (prefix v : vector) :
  flat_map (fun index => element (at_index (prefix ++ v) index))
           (zrange (Z.of_nat (List.length prefix)) (List.length v))
  = flat_map element v.
Proof.
  revert prefix. induction v as [| x v IH]; intros prefix; [reflexivity|].
  cbn [List.length]. rewrite zrange_succ. cbn [flat_map]. f_equal.
  - unfold at_index. rewrite Nat2Z.id, app_nth2 by lia.
    now rewrite Nat.sub_diag.
  - replace (prefix ++ x :: v) with ((prefix ++ [x]) ++ v)
      by now rewrite <- app_assoc.
    replace (Z.of_nat (List.length prefix) + 1)
      with (Z.of_nat (List.length (prefix ++ [x])))
      by (rewrite length_app; cbn; lia).
    apply IH.
Qed.

Lemma at_index_whole (v : vector) (n : Z) :
  Z.of_nat (List.length v) = n ->
  flat_map (fun index => element (at_index v index)) (zrange 0 (Z.to_nat n))
  = flat_map element v.
Proof.
  intros <-. rewrite Nat2Z.id. apply (at_index_all [] v).
Qed.

Lemma filled_zero_padded (n : Z) (vals : vector) :
  filled n vals = zero_padded n vals.
Proof.
  unfold filled, zero_padded. f_equal.
  generalize (Z.to_nat n) as m. generalize (List.length vals) as k.
  induction k as [| k IH]; intros m.
  - now rewrite Nat.sub_0_r.
  - destruct m as [| m]; [reflexivity | apply IH].
Qed.

Section Blocks.
Context {File Directivity : Type} (lib : SofaLib File Directivity) (theFile : File).

Lemma print_values2D_whole (pos : vector) (d0 d1 : Z) (out : ostream) :
  0 <= d0 -> 0 <= d1 -> d0 * d1 <= ULong.modulus ->
  Z.of_nat (List.length pos) = d0 * d1 ->
  print_values2D pos d0 d1 out = (Done tt, out ++ flat_map element pos).
Proof.
  intros H0 H1 Hfit Hlen. rewrite print_values2D_done.
  - rewrite traversal2D_linear by assumption. now rewrite at_index_whole.
  - intros i j Hi Hj. rewrite Hlen. now apply array2DIndex_below.
Qed.


Lemma print_rank2_only_block (name c u : string) (d0 d1 : Z) (vals : vector)
      (out : ostream) :
  readable_rank2 lib theFile name c u d0 d1 vals ->
  print_rank2_only lib theFile name out
  = (Done tt, out ++ block name name c u (zero_padded (d0 * d1) vals)).
Proof.
  intros (Hinfo & Hdims & H0 & H1 & Hmax & (ok & Hget) & Hvals).
  assert (Hmaxmod : vector_max_size < ULong.modulus) by reflexivity.
  assert (H01 : 0 <= d0 * d1) by (apply Z.mul_nonneg_nonneg; lia).
  assert (Hsize : ULong.mul d0 d1 = d0 * d1) by (apply wrap_small; split; lia).
  rewrite (print_rank2_only_run lib theFile name c u d0 d1 ok vals out
             Hinfo Hdims ltac:(lia) Hget ltac:(lia)).
  rewrite Hsize. unfold bind.
  rewrite print_values2D_whole; try lia; [| now apply filled_length].
  rewrite filled_zero_padded. unfold print, block. now rewrite <- !app_assoc.
Qed.



Lemma print_type_and_units_rejects (name c u : string) (out : ostream) :
  GetPosition lib theFile name = Returns (false, c, u) ->
  print_type_and_units lib theFile name out = (Fault AssertionFailure, out).
Proof.
  intros H. unfold print_type_and_units, bind. now rewrite H.
Qed.

End Blocks.

Ltac same_binds :=
  repeat (cbv zeta; apply bind_ext; [intros; reflexivity | intros]).

Section PositionFlags.
Context {File Directivity : Type} (lib : SofaLib File Directivity) (flag : bool -> bool).

Lemma print_rank2_position_flags (theFile : File) (name label : string)
      (dims : list Z) (o : ostream) :
  print_rank2 (override_position_flags flag lib) theFile name label dims o
  = print_rank2 lib theFile name label dims o.
Proof.
  unfold print_rank2. same_binds.
  unfold bind. cbn [override_position_flags GetPosition2D].
  now destruct (GetPosition2D lib theFile name a a0) as [[ok v] | e].
Qed.

Lemma print_rank3_position_flags (theFile : File) (name label : string)
      (dims : list Z) (o : ostream) :
  print_rank3 (override_position_flags flag lib) theFile name label dims o
  = print_rank3 lib theFile name label dims o.
Proof.
  unfold print_rank3. same_binds.
  unfold bind. cbn [override_position_flags GetPosition3D].
  now destruct (GetPosition3D lib theFile name a a0 a1) as [[ok v] | e].
Qed.

Lemma print_rank2_or_rank3_position_flags (theFile : File)
      (name label2 label3 : string) (o : ostream) :
  print_rank2_or_rank3 (override_position_flags flag lib) theFile name label2 label3 o
  = print_rank2_or_rank3 lib theFile name label2 label3 o.
Proof.
  unfold print_rank2_or_rank3. same_binds.
  apply bind_ext; [| intros; reflexivity]. intros o'.
  destruct (List.length a0 =? 2)%nat;
    [apply print_rank2_position_flags | apply print_rank3_position_flags].
Qed.

Lemma print_rank2_only_position_flags (theFile : File) (name : string) (o : ostream) :
  print_rank2_only (override_position_flags flag lib) theFile name o
  = print_rank2_only lib theFile name o.
Proof.
  unfold print_rank2_only. same_binds.
  apply bind_ext; [| intros; reflexivity]. intros o'.
  apply print_rank2_position_flags.
Qed.

Lemma PrintListener_position_flags (theFile : File) (o : ostream) :
  PrintListener (override_position_flags flag lib) theFile o
  = PrintListener lib theFile o.
Proof.
  unfold PrintListener.
  apply bind_ext; [intros; apply print_rank2_only_position_flags | intros].
  apply bind_ext; [intros; reflexivity | intros].
  apply bind_ext; [intros; apply print_rank2_only_position_flags | intros].
  apply bind_ext; [intros; reflexivity | intros].
  apply print_rank2_only_position_flags.
Qed.

Lemma report_position_flags (filename : string) (o : ostream) :
  report (override_position_flags flag lib) filename o = report lib filename o.
Proof.
  unfold report. same_binds.
  match goal with |- context [Bool.eqb ?b true] => destruct (Bool.eqb b true) end;
    [| reflexivity].
  same_binds.
  match goal with |- context [Bool.eqb ?b true] => destruct (Bool.eqb b true) end;
    [| reflexivity].
  same_binds.
  apply bind_ext; [intros; apply print_rank2_or_rank3_position_flags | intros].
  apply bind_ext; [intros; reflexivity | intros].
  apply bind_ext; [intros; apply print_rank2_or_rank3_position_flags | intros].
  reflexivity.
Qed.

End PositionFlags.

(** X3: [PrintSource] on a readable rank-2 [SourcePosition] finishes and
    writes the two opening lines, the label, every double of the buffer
    once, from the first position to the last (the values the accessor
    stored, then zeros for what it left untouched), and the end of the
    line. *)
Theorem print_source_prints_buffer
        {File Directivity : Type} (lib : SofaLib File Directivity) (theFile : File)
        (c u : string) (d0 d1 : Z) (vals : vector) (out : ostream) :
  readable_rank2 lib theFile "SourcePosition" c u d0 d1 vals ->
  PrintSource lib theFile out
  = (Done tt,
     out ++ header "SourcePosition" c u
         ++ [Padded "SourcePosition"; Text " = "]
         ++ flat_map element
              (vals ++ repeat 0%float (Z.to_nat (d0 * d1) - List.length vals))
         ++ [Endl]).
Proof.
  intros H. unfold PrintSource.
  now rewrite (print_rank2_only_block lib theFile _ c u d0 d1 vals out H).
Qed.

Lemma sample_readable_rank2 (name : string) (vals : vector) :
  Z.of_nat (List.length vals) <= 6 ->
  readable_rank2 (sample_positions true [2; 3] vals) tt name
                 "cartesian" "metre" 2 3 vals.
Proof.
  intros H. repeat split; try reflexivity; try (vm_compute; discriminate).
  - now exists false.
  - exact H.
Defined.

(** A source position of which the accessor stored only four of the six
    doubles. *)
Lemma print_source_prints_buffer_witness :
  PrintSource (sample_positions true [2; 3] [1; 2; 3; 4]%float) tt []
  = (Done tt,
     [] ++ header "SourcePosition" "cartesian" "metre"
        ++ [Padded "SourcePosition"; Text " = "]
        ++ flat_map element
             ([1; 2; 3; 4]%float
                ++ repeat 0%float (Z.to_nat (2 * 3) - List.length [1; 2; 3; 4]%float))
        ++ [Endl]).
Proof.
  apply (print_source_prints_buffer (sample_positions true [2; 3] [1; 2; 3; 4]%float) tt
           "cartesian" "metre" 2 3 [1; 2; 3; 4]%float []).
  apply sample_readable_rank2. vm_compute. discriminate.
Defined.

(** X4: [PrintListener] on a file whose [ListenerPosition],
    [ListenerView] and [ListenerUp] are readable rank-2 variables finishes
    and writes their three blocks in this order, each with every double of
    its buffer in storage order, with an empty line between two blocks. *)
Theorem print_listener_prints_three_blocks
        {File Directivity : Type} (lib : SofaLib File Directivity) (theFile : File)
        (c1 u1 c2 u2 c3 u3 : string) (p0 p1 v0 v1 w0 w1 : Z)
        (position view upward : vector) (out : ostream) :
  readable_rank2 lib theFile "ListenerPosition" c1 u1 p0 p1 position ->
  readable_rank2 lib theFile "ListenerView" c2 u2 v0 v1 view ->
  readable_rank2 lib theFile "ListenerUp" c3 u3 w0 w1 upward ->
  PrintListener lib theFile out
  = (Done tt,
     out ++ block "ListenerPosition" "ListenerPosition" c1 u1
                  (zero_padded (p0 * p1) position)
         ++ [Endl]
         ++ block "ListenerView" "ListenerView" c2 u2 (zero_padded (v0 * v1) view)
         ++ [Endl]
         ++ block "ListenerUp" "ListenerUp" c3 u3 (zero_padded (w0 * w1) upward)).
Proof.
  intros Hp Hv Hu. unfold PrintListener.
  rewrite (bind_done _ _ _ _ _ (print_rank2_only_block lib theFile _ _ _ _ _ _ out Hp)).
  rewrite (bind_done (print Endl) _ _ _ tt eq_refl).
  rewrite (bind_done _ _ _ _ _ (print_rank2_only_block lib theFile _ _ _ _ _ _ _ Hv)).
  rewrite (bind_done (print Endl) _ _ _ tt eq_refl).
  rewrite (print_rank2_only_block lib theFile _ _ _ _ _ _ _ Hu).
  now rewrite <- !app_assoc.
Qed.

(** The three listener variables of a sample file, each of dimensions
    [2,3] and fully stored. *)
Lemma print_listener_prints_three_blocks_witness :
  fst (PrintListener (sample_positions true [2; 3] [1; 2; 3; 4; 5; 6]%float) tt [])
  = Done tt.
Proof.
  rewrite (print_listener_prints_three_blocks
             (sample_positions true [2; 3] [1; 2; 3; 4; 5; 6]%float) tt
             "cartesian" "metre" "cartesian" "metre" "cartesian" "metre"
             2 3 2 3 2 3
             [1; 2; 3; 4; 5; 6]%float [1; 2; 3; 4; 5; 6]%float [1; 2; 3; 4; 5; 6]%float []).
  - reflexivity.
  - apply sample_readable_rank2. vm_compute. discriminate.
  - apply sample_readable_rank2. vm_compute. discriminate.
  - apply sample_readable_rank2. vm_compute. discriminate.
Defined.

(** X5: the four printers, and [main] with them, do not look at what the
    position accessors [Get...Position(values, dims...)] return: replacing
    the returned flags changes nothing, so that a read reported as failed
    is printed like a successful one, with whatever the buffer holds. *)
Theorem printers_ignore_position_flags
        {File Directivity : Type} (lib : SofaLib File Directivity)
        (flag : bool -> bool) (theFile : File) (out : ostream) :
  PrintEmitter (override_position_flags flag lib) theFile out
  = PrintEmitter lib theFile out
  /\ PrintReceiver (override_position_flags flag lib) theFile out
     = PrintReceiver lib theFile out
  /\ PrintListener (override_position_flags flag lib) theFile out
     = PrintListener lib theFile out
  /\ PrintSource (override_position_flags flag lib) theFile out
     = PrintSource lib theFile out
  /\ forall argv, main (override_position_flags flag lib) argv = main lib argv.
Proof.
  split; [apply print_rank2_or_rank3_position_flags|].
  split; [apply print_rank2_or_rank3_position_flags|].
  split; [apply PrintListener_position_flags|].
  split; [apply print_rank2_only_position_flags|].
  intros argv. destruct argv as [| prog [| arg [| more rest]]]; cbn [main].
  - reflexivity.
  - reflexivity.
  - destruct (is_help arg); [reflexivity|]. now rewrite report_position_flags.
  - reflexivity.
Qed.

(** X6: each printer first asserts that the coordinate system and units of
    its variable were found: when [Get...Position(coordinates, units)]
    returns false the printer stops at the assertion and has written
    nothing. *)
Theorem printers_stop_without_metadata
        {File Directivity : Type} (lib : SofaLib File Directivity) (theFile : File)
        (out : ostream) :
  (forall c u,
      GetPosition lib theFile "EmitterPosition" = Returns (false, c, u) ->
      PrintEmitter lib theFile out = (Fault AssertionFailure, out))
  /\ (forall c u,
      GetPosition lib theFile "ReceiverPosition" = Returns (false, c, u) ->
      PrintReceiver lib theFile out = (Fault AssertionFailure, out))
  /\ (forall c u,
      GetPosition lib theFile "ListenerPosition" = Returns (false, c, u) ->
      PrintListener lib theFile out = (Fault AssertionFailure, out))
  /\ (forall c u,
      GetPosition lib theFile "SourcePosition" = Returns (false, c, u) ->
      PrintSource lib theFile out = (Fault AssertionFailure, out)).
Proof.
  repeat split; intros c u H.
  - unfold PrintEmitter, print_rank2_or_rank3. apply bind_fault.
    now apply (print_type_and_units_rejects lib theFile _ c u).
  - unfold PrintReceiver, print_rank2_or_rank3. apply bind_fault.
    now apply (print_type_and_units_rejects lib theFile _ c u).
  - unfold PrintListener, print_rank2_only. do 2 apply bind_fault.
    now apply (print_type_and_units_rejects lib theFile _ c u).
  - unfold PrintSource, print_rank2_only. apply bind_fault.
    now apply (print_type_and_units_rejects lib theFile _ c u).
Qed.

(** A sample file without position metadata. *)
Lemma printers_stop_without_metadata_witness :
  PrintSource (sample_positions false [2; 3] []) tt [] = (Fault AssertionFailure, [])
  /\ PrintListener (sample_positions false [2; 3] []) tt [] = (Fault AssertionFailure, []).
Proof.
  pose proof (printers_stop_without_metadata (sample_positions false [2; 3] []) tt [])
    as (_ & _ & Hl & Hs).
  split; [apply (Hs "cartesian"%string "metre"%string)
         | apply (Hl "cartesian"%string "metre"%string)]; reflexivity.
Defined.

(** X7: [PrintSource] and [PrintListener] accept rank 2 only.  On any
    other reported rank [PrintSource] stops at its assertion after the two
    opening lines, before a buffer is allocated or a value printed; and
    [PrintListener] checks each of its three variables in turn, so that a
    [ListenerView] of another rank stops it after the whole
    [ListenerPosition] block. *)
Theorem rank2_printers_reject_other_ranks
        {File Directivity : Type} (lib : SofaLib File Directivity) (theFile : File)
        (out : ostream) :
  (forall c u dims,
      GetPosition lib theFile "SourcePosition" = Returns (true, c, u) ->
      GetVariableDimensions lib theFile "SourcePosition" = Returns dims ->
      List.length dims <> 2%nat ->
      PrintSource lib theFile out
      = (Fault AssertionFailure, out ++ header "SourcePosition" c u))
  /\ (forall cp up p0 p1 position cv uv dims,
      readable_rank2 lib theFile "ListenerPosition" cp up p0 p1 position ->
      GetPosition lib theFile "ListenerView" = Returns (true, cv, uv) ->
      GetVariableDimensions lib theFile "ListenerView" = Returns dims ->
      List.length dims <> 2%nat ->
      PrintListener lib theFile out
      = (Fault AssertionFailure,
         out ++ block "ListenerPosition" "ListenerPosition" cp up
                      (zero_padded (p0 * p1) position)
             ++ [Endl] ++ header "ListenerView" cv uv)).
Proof.
  split.
  - intros c u dims Hinfo Hdims Hrank. unfold PrintSource.
    now apply (print_rank2_only_rejects lib theFile _ c u dims).
  - intros cp up p0 p1 position cv uv dims Hp Hinfo Hdims Hrank. unfold PrintListener.
    rewrite (bind_done _ _ _ _ _ (print_rank2_only_block lib theFile _ _ _ _ _ _ out Hp)).
    rewrite (bind_done (print Endl) _ _ _ tt eq_refl).
    erewrite bind_fault;
      [| now apply (print_rank2_only_rejects lib theFile _ cv uv dims)].
    now rewrite <- !app_assoc.
Qed.

(** A sample file whose source position is reported with rank 3. *)
Lemma rank2_printers_reject_other_ranks_witness :
  PrintSource (sample_positions true [1; 3; 2] []) tt []
  = (Fault AssertionFailure, [] ++ header "SourcePosition" "cartesian" "metre").
Proof.
  apply (proj1 (rank2_printers_reject_other_ranks
                  (sample_positions true [1; 3; 2] []) tt [])
               "cartesian"%string "metre"%string [1; 3; 2]); try reflexivity.
  discriminate.
Defined.

(** * Further properties of [main] *)

Ltac run_step :=
  first [ erewrite bind_done by reflexivity
        | erewrite bind_done by (apply invoke_returns; eassumption) ].

Section Reports.
Context {File Directivity : Type} (lib : SofaLib File Directivity).

Lemma report_after_preamble (filename : string) (theFile : File)
      (attributes dimensions : ostream) (dataType : string) (out : ostream) :
  File_open lib filename = Returns theFile ->
  IsValid lib theFile = Returns true ->
  PrintAllAttributes lib theFile true = Returns attributes ->
  PrintSOFADimensions lib theFile true = Returns dimensions ->
  GetAttributeValueAsString lib theFile "DataType" = Returns dataType ->
  report lib filename out
  = directivity_report lib theFile filename
                       (out ++ preamble filename attributes dimensions).
Proof.
  intros Hopen Hvalid Hattr Hdims Htype. unfold report.
  do 2 run_step. cbn [Bool.eqb]. do 13 run_step.
  unfold directivity_report, preamble, emit.
  rewrite <- !app_assoc. reflexivity.
Qed.

Lemma report_not_directivity (filename : string) (theFile : File)
      (directivity : Directivity) (out : ostream) :
  Directivity_open lib filename = Returns directivity ->
  Directivity_IsValid lib directivity = Returns false ->
  directivity_report lib theFile filename out
  = (Done tt,
     out ++ [Text filename; Text " is not a valid 'FreeFieldDirectivityTF' file"; Endl]).
Proof.
  intros Hopen Hvalid. unfold directivity_report.
  do 2 run_step. cbn [Bool.eqb]. do 2 run_step.
  unfold print. now rewrite <- !app_assoc.
Qed.




Lemma bind_map_call_ignored {A B} (g : A -> A) (c : call A) (k k' : M B) :
  (forall o, k o = k' o) ->
  forall o, (_ <- invoke (map_call g c) ;; k) o = (_ <- invoke c ;; k') o.
Proof.
  intros H o. unfold bind. destruct c as [a | e]; cbn; [apply H | reflexivity].
Qed.

Lemma report_unused (attribute : string -> string) (emitters : Z -> Z)
      (filename : string) (o : ostream) :
  report (override_unused attribute emitters lib) filename o = report lib filename o.
Proof.
  unfold report. same_binds.
  match goal with |- context [Bool.eqb ?b true] => destruct (Bool.eqb b true) end;
    [| reflexivity].
  same_binds. cbv zeta.
  apply (bind_map_call_ignored attribute). intros.
  same_binds.
  match goal with |- context [Bool.eqb ?b true] => destruct (Bool.eqb b true) end;
    [| reflexivity].
  same_binds. cbv zeta.
  apply (bind_map_call_ignored emitters). intros.
  same_binds. reflexivity.
Qed.

End Reports.

(** X8: a file that does not validate is no error for the tool.  When the
    file opens and [IsValid] answers false, [main] writes the one line
    "<file> is not a valid SOFA file" and returns 0; when it is a valid
    SOFA file but not a valid FreeFieldDirectivityTF file, [main] writes
    the preamble (validity line, attributes, dimensions) and the line
    "<file> is not a valid 'FreeFieldDirectivityTF' file", and returns 0.
    Nothing is written to [std::cerr] in either case. *)
Theorem main_invalid_file_returns_0
        {File Directivity : Type} (lib : SofaLib File Directivity)
        (prog file : string) (theFile : File) :
  is_help file = false ->
  File_open lib file = Returns theFile ->
  (IsValid lib theFile = Returns false ->
   main lib [prog; file]
   = {| stdout := [Text file; Text " is not a valid SOFA file"; Endl];
        stderr := [];
        ended := Exit 0 |})
  /\ (forall attributes dimensions dataType directivity,
        IsValid lib theFile = Returns true ->
        PrintAllAttributes lib theFile true = Returns attributes ->
        PrintSOFADimensions lib theFile true = Returns dimensions ->
        GetAttributeValueAsString lib theFile "DataType" = Returns dataType ->
        Directivity_open lib file = Returns directivity ->
        Directivity_IsValid lib directivity = Returns false ->
        main lib [prog; file]
        = {| stdout := preamble file attributes dimensions
                         ++ [Text file;
                             Text " is not a valid 'FreeFieldDirectivityTF' file";
                             Endl];
             stderr := [];
             ended := Exit 0 |}).
Proof.
  intros Hfile Hopen. split.
  - intros Hvalid. cbn [main]. rewrite Hfile.
    now rewrite (report_not_sofa lib file theFile Hopen Hvalid).
  - intros attributes dimensions dataType directivity Hvalid Hattr Hdims Htype Hdir Hno.
    cbn [main]. rewrite Hfile.
    rewrite (report_after_preamble lib file theFile attributes dimensions dataType []
               Hopen Hvalid Hattr Hdims Htype).
    now rewrite (report_not_directivity lib file theFile directivity _ Hdir Hno).
Qed.

(** A file that is not a SOFA file, and a SOFA file of another
    convention. *)
Lemma main_invalid_file_returns_0_witness :
  ended (main (sample_validity false true true) ["sofainfo"; "a.sofa"]%string) = Exit 0
  /\ ended (main (sample_validity true false true) ["sofainfo"; "a.sofa"]%string) = Exit 0.
Proof.
  split.
  - rewrite (proj1 (main_invalid_file_returns_0 (sample_validity false true true)
                      "sofainfo" "a.sofa" tt eq_refl eq_refl) eq_refl).
    reflexivity.
  - rewrite (proj2 (main_invalid_file_returns_0 (sample_validity true false true)
                      "sofainfo" "a.sofa" tt eq_refl eq_refl)
                   [Text "Conventions = SOFA"; Endl] [Text "M = 2"; Endl] "TF"%string tt
                   eq_refl eq_refl eq_refl eq_refl eq_refl eq_refl).
    reflexivity.
Defined.

(** X9: an exception does not take back what was already written.  When
    the file is a valid SOFA file and opening it as a directivity file
    throws, [main] has written the whole preamble to [std::cout], writes
    the message of the exception to [std::cerr] ("exception occured : "
    and [what()], or "unknown exception occured"), and exits with 1. *)
Theorem main_keeps_output_before_exception
        {File Directivity : Type} (lib : SofaLib File Directivity)
        (prog file : string) (theFile : File)
        (attributes dimensions : ostream) (dataType : string) (e : exn) :
  is_help file = false ->
  File_open lib file = Returns theFile ->
  IsValid lib theFile = Returns true ->
  PrintAllAttributes lib theFile true = Returns attributes ->
  PrintSOFADimensions lib theFile true = Returns dimensions ->
  GetAttributeValueAsString lib theFile "DataType" = Returns dataType ->
  Directivity_open lib file = Throws e ->
  main lib [prog; file]
  = {| stdout := preamble file attributes dimensions;
       stderr := error_message e;
       ended := Exit 1 |}.
Proof.
  intros Hfile Hopen Hvalid Hattr Hdims Htype Hthrow. cbn [main]. rewrite Hfile.
  rewrite (report_after_preamble lib file theFile attributes dimensions dataType []
             Hopen Hvalid Hattr Hdims Htype).
  unfold directivity_report, bind. rewrite Hthrow. cbn [invoke stop].
  now destruct e.
Qed.

(** The sample file when its opening as a directivity file throws. *)
Lemma main_keeps_output_before_exception_witness :
  main (sample_validity true true false) ["sofainfo"; "a.sofa"]%string
  = {| stdout := preamble "a.sofa" [Text "Conventions = SOFA"; Endl] [Text "M = 2"; Endl];
       stderr := error_message (StdException "NcException");
       ended := Exit 1 |}.
Proof.
  apply (main_keeps_output_before_exception (sample_validity true true false)
           "sofainfo" "a.sofa" tt _ _ "TF"%string); reflexivity.
Defined.

(** X10: [main] reads the [DataType] attribute and the number of emitters
    and uses neither: whatever text the attribute holds and whatever
    number of emitters the file has, the output and the way the process
    ends are the same. *)
Theorem main_ignores_datatype_and_emitters
        {File Directivity : Type} (lib : SofaLib File Directivity)
        (attribute : string -> string) (emitters : Z -> Z) (argv : list string) :
  main (override_unused attribute emitters lib) argv = main lib argv.
Proof.
  destruct argv as [| prog [| arg [| more rest]]]; cbn [main].
  - reflexivity.
  - reflexivity.
  - destruct (is_help arg); [reflexivity|]. now rewrite report_unused.
  - reflexivity.
Qed.


